(** * Manzi Water dashboard: data generation and filtering

    A shallow embedding of [manzi_dashboard.py]: the two synthetic data
    generators ([generate_sample_data], [generate_geo_data]) and the filter
    stage that derives [df_filtered], [current_metrics] and
    [df_geo_filtered] from the generated tables.

    Conventions of the embedding.
    - Python floats are idealised as real numbers ([R]); [max] and [min] on
      them are [Rmax] and [Rmin].
    - A [pd.Timestamp] of the daily KPI index is the number of days since
      1970-01-01 (the index has frequency ['D'], every entry is a midnight).
      A [datetime] of the incident table is a number of microseconds since
      the epoch.
    - The ambient state read by the generators (numpy's global random state
      and the wall clock) is an abstract world [G] that every call threads;
      a call either returns a value and the next world, or raises.
    - A DataFrame is the list of its rows, in index order; the objects the
      script binds to variables live in a store, so aliasing ([a = b]) and
      in-place column assignment ([df['c'] = ...]) are visible. *)

From Stdlib Require Import ZArith Reals Lra Lia List String Bool Permutation Sorted.
From stdpp Require Import gmap strings.
Import ListNotations.

Open Scope Z_scope.

(** ** Outcomes and the state-and-exception monad *)

Inductive exn : Set := ValueError | IndexError | KeyError.

Inductive outcome (A : Type) : Type :=
| Returned (a : A)
| Raised (e : exn).
Arguments Returned {A} a.
Arguments Raised {A} e.

Definition M (G A : Type) : Type := G -> outcome (A * G).

Definition ret {G A : Type} (a : A) : M G A := fun g => Returned (a, g).

Definition bind {G A B : Type} (c : M G A) (k : A -> M G B) : M G B :=
  fun g => match c g with
           | Returned (a, g') => k a g'
           | Raised e => Raised e
           end.

Definition raise {G A : Type} (e : exn) : M G A := fun _ => Raised e.

Notation "x <- c ;; k" := (bind c (fun x => k))
  (at level 90, c at level 89, right associativity).

(** [for x in xs: body], with the variables the body updates as [s]. *)
Fixpoint for_in {G A S : Type} (xs : list A) (body : A -> S -> M G S) (s : S)
  : M G S :=
  match xs with
  | [] => ret s
  | x :: xs' => s' <- body x s ;; for_in xs' body s'
  end.

(** Python's [range(n)]. *)
Definition range (n : Z) : list Z := map Z.of_nat (seq 0 (Z.to_nat n)).

(** ** The world: numpy's random state and the clock *)

Class World (G : Type) : Type := {
  (** [np.random.normal(loc, scale)] *)
  normal : R -> R -> M G R;
  (** [np.random.randint(low, high)] *)
  randint : Z -> Z -> M G Z;
  (** [np.random.uniform(low, high)] *)
  uniform : R -> R -> M G R;
  (** [np.random.choice(a, p=p)] *)
  choice : list string -> list R -> M G string;
  (** [datetime.now()], in microseconds *)
  datetime_now : M G Z
}.

Definition Rsum (p : list R) : R := fold_right Rplus 0%R p.

(** What numpy and the clock guarantee for well-formed arguments. *)
Class WorldLaws (G : Type) `{World G} : Prop := {
  normal_returns : forall (loc scale : R) (g : G),
    (0 <= scale)%R -> exists x g', normal loc scale g = Returned (x, g');
  randint_returns : forall (low high : Z) (g : G),
    low < high ->
    exists k g', randint low high g = Returned (k, g') /\ low <= k < high;
  uniform_returns : forall (low high : R) (g : G),
    (low <= high)%R ->
    exists x g', uniform low high g = Returned (x, g') /\ (low <= x <= high)%R;
  choice_returns : forall (a : list string) (p : list R) (g : G),
    a <> [] -> length p = length a -> Forall (fun x => (0 <= x)%R) p ->
    Rsum p = 1%R ->
    exists x g', choice a p g = Returned (x, g') /\ In x a;
  now_returns : forall g : G, exists t g', datetime_now g = Returned (t, g')
}.

(** ** The calendar of [pd.Timestamp] (proleptic Gregorian) *)

Definition Timestamp : Type := Z.

Definition days_from_civil (y m d : Z) : Timestamp :=
  let y := if m <=? 2 then y - 1 else y in
  let era := y / 400 in
  let yoe := y - era * 400 in
  let doy := (153 * (if 2 <? m then m - 3 else m + 9) + 2) / 5 + d - 1 in
  let doe := yoe * 365 + yoe / 4 - yoe / 100 + doy in
  era * 146097 + doe - 719468.

Definition civil_from_days (z : Timestamp) : Z * Z * Z :=
  let z := z + 719468 in
  let era := z / 146097 in
  let doe := z - era * 146097 in
  let yoe := (doe - doe / 1460 + doe / 36524 - doe / 146096) / 365 in
  let y := yoe + era * 400 in
  let doy := doe - (365 * yoe + yoe / 4 - yoe / 100) in
  let mp := (5 * doy + 2) / 153 in
  let d := doy - (153 * mp + 2) / 5 + 1 in
  let m := if mp <? 10 then mp + 3 else mp - 9 in
  (if m <=? 2 then y + 1 else y, m, d).

(** [date.year], [date.month] and [date.timetuple().tm_yday]. *)
Definition year (date : Timestamp) : Z := fst (fst (civil_from_days date)).
Definition month (date : Timestamp) : Z := snd (fst (civil_from_days date)).
Definition tm_yday (date : Timestamp) : Z :=
  date - days_from_civil (year date) 1 1 + 1.

(** [pd.date_range(start, end, freq='D')]: every day from [start] to
    [end_] inclusive; empty when [end_] precedes [start]. *)
Definition date_range (start end_ : Timestamp) : list Timestamp :=
  map (fun i => start + Z.of_nat i) (seq 0 (Z.to_nat (end_ - start + 1))).

(** [x in xs] on integers. *)
Definition in_list (x : Z) (xs : list Z) : bool := existsb (Z.eqb x) xs.

(** ** The KPI table *)

Record KpiRecord : Type := {
  date : Timestamp;
  reservoir_level : R;
  leakage_rate : R;
  pump_uptime : R;
  billing_efficiency : R;
  energy_cost : R;
  compliance : R;
  csat : R
}.

(** The range of [generate_sample_data]: ['2022-01-01'] to ['2024-12-31']. *)
Definition range_start : Timestamp := days_from_civil 2022 1 1.
Definition range_end : Timestamp := days_from_civil 2024 12 31.

(** The deterministic part of each metric, before the noise is added. *)

Definition reservoir_base (date : Timestamp) : R :=
  let day_of_year := tm_yday date in
  let year := year date in
  let reservoir_base := (75 + 20 * sin (2 * PI * IZR day_of_year / 365))%R in
  if (year =? 2024) && in_list (month date) [4; 5; 6]
  then (reservoir_base - 15)%R
  else reservoir_base.

Definition leakage_base (date : Timestamp) : R :=
  let year := year date in
  IZR (25 - (year - 2022) * 2).

Definition pump_base (date : Timestamp) : R :=
  let year := year date in
  IZR (95 - (if (year =? 2024) && in_list (month date) [4; 5; 6] then 5 else 0)).

Definition energy_base (date : Timestamp) : R :=
  let year := year date in
  let energy_base := (2.5 + IZR (year - 2022) * 0.3)%R in
  if (year =? 2024) && in_list (month date) [4; 5; 6]
  then (energy_base * 1.4)%R
  else energy_base.

Definition csat_base (date : Timestamp) : R :=
  let year := year date in
  IZR (78 - (if (year =? 2024) && in_list (month date) [4; 5; 6] then 3 else 0)).

Section Generators.
Context {G : Type} `{World G}.

(** The body of the loop over [dates]: seven draws, one row appended. *)
Definition kpi_row (date : Timestamp) (kpi_data : list KpiRecord)
  : M G (list KpiRecord) :=
  n <- normal 0 5 ;;
  let reservoir_level := Rmax 20 (reservoir_base date + n) in
  n <- normal 0 2 ;;
  let leakage_rate := Rmax 10 (leakage_base date + n) in
  n <- normal 0 3 ;;
  let pump_uptime := Rmin 100 (Rmax 80 (pump_base date + n)) in
  n <- normal 0 5 ;;
  let billing_efficiency := Rmin 100 (Rmax 70 (85 + n)) in
  n <- normal 0 0.2 ;;
  let energy_cost := Rmax 1 (energy_base date + n) in
  n <- normal 0 2 ;;
  let compliance := Rmin 100 (Rmax 85 (96 + n)) in
  n <- normal 0 4 ;;
  let csat := Rmin 100 (Rmax 60 (csat_base date + n)) in
  ret (kpi_data ++ [ {| date := date;
                        reservoir_level := reservoir_level;
                        leakage_rate := leakage_rate;
                        pump_uptime := pump_uptime;
                        billing_efficiency := billing_efficiency;
                        energy_cost := energy_cost;
                        compliance := compliance;
                        csat := csat |} ]).

(** The loop of [generate_sample_data] over an arbitrary index. *)
Definition kpi_data (dates : list Timestamp) : M G (list KpiRecord) :=
  for_in dates kpi_row [].

Definition generate_sample_data : M G (list KpiRecord) :=
  let dates := date_range range_start range_end in
  kpi_data dates.

End Generators.

(** ** The incident table *)

(** An anchor: one entry of [locations]. *)
Record Location : Type := {
  loc_city : string;
  loc_lat : R;
  loc_lon : R
}.

(** A row of the incident table. [color] and [size] are the columns the
    filter stage adds to its view; they are [None] where the column is
    absent (or holds no value). *)
Record GeoRow : Type := {
  lat : R;
  lon : R;
  city : string;
  type : string;
  severity : string;
  timestamp : Z;
  color : option string;
  size : option Z
}.

Definition locations : list Location := [
  {| loc_city := "Johannesburg"; loc_lat := (-26.2041)%R; loc_lon := 28.0473%R |};
  {| loc_city := "Cape Town"; loc_lat := (-33.9249)%R; loc_lon := 18.4241%R |};
  {| loc_city := "Durban"; loc_lat := (-29.8587)%R; loc_lon := 31.0218%R |};
  {| loc_city := "Pretoria"; loc_lat := (-25.7479)%R; loc_lon := 28.2293%R |};
  {| loc_city := "Port Elizabeth"; loc_lat := (-33.9608)%R; loc_lon := 25.6022%R |};
  {| loc_city := "Bloemfontein"; loc_lat := (-29.0852)%R; loc_lon := 26.1596%R |};
  {| loc_city := "East London"; loc_lat := (-33.0153)%R; loc_lon := 27.9116%R |};
  {| loc_city := "Polokwane"; loc_lat := (-23.9045)%R; loc_lon := 29.4689%R |};
  {| loc_city := "Nelspruit"; loc_lat := (-25.4653)%R; loc_lon := 30.9700%R |};
  {| loc_city := "Kimberley"; loc_lat := (-28.7282)%R; loc_lon := 24.7499%R |}
].

Definition incident_types : list string :=
  ["pipe_burst"; "pump_outage"; "refill_station"]%string.
Definition severities : list string := ["High"; "Medium"; "Low"]%string.

(** [timedelta(days=n)], in microseconds. *)
Definition timedelta (days : Z) : Z := days * 86400000000.

Section GeoGenerator.
Context {G : Type} `{World G}.

(** The body of the inner loop: one incident around [loc]. *)
Definition geo_incident (loc : Location) (_ : Z) (geo_data : list GeoRow)
  : M G (list GeoRow) :=
  incident_type <- choice incident_types [0.4; 0.3; 0.3]%R ;;
  lat_offset <- uniform (-0.1) 0.1 ;;
  lon_offset <- uniform (-0.1) 0.1 ;;
  severity <- choice severities [0.2; 0.5; 0.3]%R ;;
  now <- datetime_now ;;
  days <- randint 0 30 ;;
  ret (geo_data ++ [ {| lat := (loc_lat loc + lat_offset)%R;
                        lon := (loc_lon loc + lon_offset)%R;
                        city := loc_city loc;
                        type := incident_type;
                        severity := severity;
                        timestamp := now - timedelta days;
                        color := None;
                        size := None |} ]).

(** The body of the outer loop: between 5 and 14 incidents per anchor. *)
Definition geo_anchor (loc : Location) (geo_data : list GeoRow)
  : M G (list GeoRow) :=
  n <- randint 5 15 ;;
  for_in (range n) (geo_incident loc) geo_data.

(** The loops of [generate_geo_data] over an arbitrary anchor list. *)
Definition geo_data (locations : list Location) : M G (list GeoRow) :=
  for_in locations geo_anchor [].

Definition generate_geo_data : M G (list GeoRow) :=
  geo_data locations.

End GeoGenerator.

(** ** The filter stage on table values *)

(** [df[mask]]: the rows whose mask entry is [True], in order. *)
Fixpoint boolean_index {A : Type} (df : list A) (mask : list bool) : list A :=
  match df, mask with
  | r :: df', b :: mask' =>
      if b then r :: boolean_index df' mask' else boolean_index df' mask'
  | _, _ => []
  end.

(** [m1 & m2] on boolean columns. *)
Fixpoint mask_and (m1 m2 : list bool) : list bool :=
  match m1, m2 with
  | b1 :: m1', b2 :: m2' => (b1 && b2) :: mask_and m1' m2'
  | _, _ => []
  end.

(** [df.tail(1)], [df.iloc[0]] and [df.empty]. *)
Definition tail1 {A : Type} (df : list A) : list A :=
  skipn (length df - 1) df.

Definition iloc0 {A : Type} (df : list A) : outcome A :=
  match df with
  | [] => Raised IndexError
  | r :: _ => Returned r
  end.

Definition empty_frame {A : Type} (df : list A) : bool :=
  match df with [] => true | _ => false end.

(** The mask of the sidebar's date range:
    [(df_kpis['date'] >= d0) & (df_kpis['date'] <= d1)]. *)
Definition date_mask (d0 d1 : Timestamp) (df_kpis : list KpiRecord) : list bool :=
  mask_and (map (fun r => d0 <=? date r) df_kpis)
           (map (fun r => date r <=? d1) df_kpis).

(** [date_range] is the tuple the date widget returns; the table is
    filtered only when it holds both ends. *)
Definition df_filtered (date_range : list Timestamp) (df_kpis : list KpiRecord)
  : list KpiRecord :=
  match date_range with
  | [d0; d1] => boolean_index df_kpis (date_mask d0 d1 df_kpis)
  | _ => df_kpis
  end.

Definition current_metrics (df_filtered df_kpis : list KpiRecord)
  : outcome KpiRecord :=
  if negb (empty_frame df_filtered)
  then iloc0 (tail1 df_filtered)
  else iloc0 (tail1 df_kpis).

(** The three filters of the map tab, each on the view so far. *)
Definition filter_type (incident_filter : string) (df_geo_filtered : list GeoRow)
  : list GeoRow :=
  if negb (incident_filter =? "All")%string
  then boolean_index df_geo_filtered
         (map (fun r => (type r =? incident_filter)%string) df_geo_filtered)
  else df_geo_filtered.

Definition filter_severity (severity_filter : string)
  (df_geo_filtered : list GeoRow) : list GeoRow :=
  if negb (severity_filter =? "All")%string
  then boolean_index df_geo_filtered
         (map (fun r => (severity r =? severity_filter)%string) df_geo_filtered)
  else df_geo_filtered.

Definition filter_days (cutoff_date : Z) (df_geo_filtered : list GeoRow)
  : list GeoRow :=
  boolean_index df_geo_filtered
    (map (fun r => cutoff_date <=? timestamp r) df_geo_filtered).

Definition color_map : gmap string string :=
  <["pipe_burst" := "#dc2626"]>
    (<["pump_outage" := "#d97706"]> (<["refill_station" := "#059669"]> ∅)).

Definition size_map : gmap string Z :=
  <["High" := 15]> (<["Medium" := 10]> (<["Low" := 7]> ∅)).

(** [df['color'] = df['type'].map(color_map)], row by row. *)
Definition set_color (r : GeoRow) : GeoRow :=
  {| lat := lat r; lon := lon r; city := city r; type := type r;
     severity := severity r; timestamp := timestamp r;
     color := color_map !! type r; size := size r |}.

(** [df['size'] = df['severity'].map(size_map)], row by row. *)
Definition set_size (r : GeoRow) : GeoRow :=
  {| lat := lat r; lon := lon r; city := city r; type := type r;
     severity := severity r; timestamp := timestamp r;
     color := color r; size := size_map !! severity r |}.

(** The view of the map tab, for the cut-off the clock gave. *)
Definition df_geo_filtered (incident_filter severity_filter : string)
  (cutoff_date : Z) (df_geo : list GeoRow) : list GeoRow :=
  let df_geo_filtered := df_geo in
  let df_geo_filtered := filter_type incident_filter df_geo_filtered in
  let df_geo_filtered := filter_severity severity_filter df_geo_filtered in
  let df_geo_filtered := filter_days cutoff_date df_geo_filtered in
  let df_geo_filtered := map set_color df_geo_filtered in
  map set_size df_geo_filtered.

(** ** The filter stage on the store *)

(** A reference to a DataFrame object. *)
Definition ref : Type := nat.

Inductive Frame : Type :=
| KpiFrame (rows : list KpiRecord)
| GeoFrame (rows : list GeoRow).

(** The state of the running script: the world and the DataFrame objects. *)
Record Process (G : Type) : Type := {
  world : G;
  heap : gmap ref Frame
}.
Arguments world {G} _.
Arguments heap {G} _.

Section Script.
Context {G : Type} `{World G}.

(** A new DataFrame object; every pandas operation below that returns a
    frame returns a new one. *)
Definition new_frame (f : Frame) : M (Process G) ref :=
  fun p =>
    let l := fresh (dom (heap p)) in
    Returned (l, {| world := world p; heap := <[l := f]> (heap p) |}).

Definition kpi_rows (l : ref) : M (Process G) (list KpiRecord) :=
  fun p => match heap p !! l with
           | Some (KpiFrame rows) => Returned (rows, p)
           | _ => Raised KeyError
           end.

Definition geo_rows (l : ref) : M (Process G) (list GeoRow) :=
  fun p => match heap p !! l with
           | Some (GeoFrame rows) => Returned (rows, p)
           | _ => Raised KeyError
           end.

(** Assignment into the object itself, as [df[col] = values] does. *)
Definition write_frame (l : ref) (f : Frame) : M (Process G) unit :=
  fun p => Returned (tt, {| world := world p; heap := <[l := f]> (heap p) |}).

(** [datetime.now()] from the script. *)
Definition script_now : M (Process G) Z :=
  fun p => match datetime_now (world p) with
           | Returned (t, g') => Returned (t, {| world := g'; heap := heap p |})
           | Raised e => Raised e
           end.

(** [df.copy()] *)
Definition copy_geo (df : ref) : M (Process G) ref :=
  rows <- geo_rows df ;; new_frame (GeoFrame rows).

(** [df[mask(df)]] *)
Definition getitem_geo (df : ref) (mask : list GeoRow -> list bool)
  : M (Process G) ref :=
  rows <- geo_rows df ;; new_frame (GeoFrame (boolean_index rows (mask rows))).

(** [df[col] = f(df)], in place. *)
Definition setitem_geo (df : ref) (f : GeoRow -> GeoRow) : M (Process G) unit :=
  rows <- geo_rows df ;; write_frame df (GeoFrame (map f rows)).

(** Lines 194-198: the date filter; without both ends of the range
    [df_filtered] is another name of [df_kpis]. *)
Definition filter_kpis (df_kpis : ref) (date_range : list Timestamp)
  : M (Process G) ref :=
  match date_range with
  | [d0; d1] =>
      rows <- kpi_rows df_kpis ;;
      let mask := date_mask d0 d1 rows in
      new_frame (KpiFrame (boolean_index rows mask))
  | _ => ret df_kpis
  end.

(** Lines 367-393: the view of the map tab. *)
Definition filter_geo (df_geo : ref) (incident_filter severity_filter : string)
  (days_filter : Z) : M (Process G) ref :=
  df_geo_filtered <- copy_geo df_geo ;;
  df_geo_filtered <-
    (if negb (incident_filter =? "All")%string
     then getitem_geo df_geo_filtered
            (map (fun r => (type r =? incident_filter)%string))
     else ret df_geo_filtered) ;;
  df_geo_filtered <-
    (if negb (severity_filter =? "All")%string
     then getitem_geo df_geo_filtered
            (map (fun r => (severity r =? severity_filter)%string))
     else ret df_geo_filtered) ;;
  now <- script_now ;;
  let cutoff_date := now - timedelta days_filter in
  df_geo_filtered <-
    getitem_geo df_geo_filtered (map (fun r => cutoff_date <=? timestamp r)) ;;
  _ <- setitem_geo df_geo_filtered set_color ;;
  _ <- setitem_geo df_geo_filtered set_size ;;
  ret df_geo_filtered.

(** The filter stage of one run of the script. *)
Definition filter_stage (df_kpis df_geo : ref) (date_range : list Timestamp)
  (incident_filter severity_filter : string) (days_filter : Z)
  : M (Process G) (ref * ref) :=
  df_filtered <- filter_kpis df_kpis date_range ;;
  df_geo_filtered <- filter_geo df_geo incident_filter severity_filter days_filter ;;
  ret (df_filtered, df_geo_filtered).

End Script.

(** ** The alerts of the map tab *)

(** Lines 396-411: the map is drawn when the view has rows, the notice
    "No incidents found" is shown otherwise. *)
Inductive MapPanel : Type :=
| ScatterMap (rows : list GeoRow)
| NoIncidentsFound.

Definition map_panel (df_geo_filtered : list GeoRow) : MapPanel :=
  if negb (empty_frame df_geo_filtered)
  then ScatterMap df_geo_filtered
  else NoIncidentsFound.

(** [df_geo_filtered[df_geo_filtered['severity'] == 'High']] *)
Definition critical_incidents (df_geo_filtered : list GeoRow) : list GeoRow :=
  boolean_index df_geo_filtered
    (map (fun r => (severity r =? "High")%string) df_geo_filtered).

Definition status_color (incident : GeoRow) : string :=
  if (severity incident =? "High")%string then "status-red" else "status-yellow".

(** Lines 426-440: one card, with its status class, for each of the first
    five critical incidents, or the notice that there is none. *)
Inductive AlertPanel : Type :=
| Cards (cards : list (string * GeoRow))
| NoCriticalIncidents.

Definition critical_alerts (df_geo_filtered : list GeoRow) : AlertPanel :=
  let critical_incidents := critical_incidents df_geo_filtered in
  if negb (empty_frame critical_incidents)
  then Cards (map (fun incident => (status_color incident, incident))
                (firstn 5 critical_incidents))
  else NoCriticalIncidents.

(** ** The forecasts of the analytics tab *)

(** [Series.max()] of a date column: [None] is [NaT], for an empty column. *)
Definition series_max (col : list Timestamp) : option Timestamp :=
  fold_right (fun d acc => Some (match acc with
                                 | None => d
                                 | Some m => Z.max d m
                                 end)) None col.

(** [pd.date_range(start=start, periods=periods, freq='D')]; a [NaT] start
    is refused. *)
Definition date_range_periods (start : option Timestamp) (periods : Z)
  : outcome (list Timestamp) :=
  match start with
  | None => Raised ValueError
  | Some start => Returned (map (fun i => start + i) (range periods))
  end.

(** [col.iloc[-1]] and [col[-n:]]. *)
Definition iloc_last {A : Type} (col : list A) : outcome A :=
  match rev col with
  | [] => Raised IndexError
  | x :: _ => Returned x
  end.

Definition last_n {A : Type} (n : nat) (col : list A) : list A :=
  skipn (length col - n) col.

(** Python's [range(start, stop)]. *)
Definition range_from (start stop : Z) : list Z :=
  map (fun i => start + Z.of_nat i) (seq 0 (Z.to_nat (stop - start))).

Definition base_demand : Z := 1000000.

(** [[base_demand * (1 + 0.2 * np.sin(2 * np.pi * i / 365))
      for i in range(-30, 0)]] *)
Definition historical_demand : list R :=
  map (fun i => (IZR base_demand * (1 + 0.2 * sin (2 * PI * IZR i / 365)))%R)
    (range_from (-30) 0).

(** What the two forecast charts are drawn from. *)
Record Forecasts : Type := {
  future_dates : list Timestamp;
  forecast_leakage : list R;
  history_dates : list Timestamp;
  history_leakage : list R;
  forecast_demand : list R;
  demand_history : list R
}.

Section Analytics.
Context {G : Type} `{World G}.

Definition of_outcome {A : Type} (o : outcome A) : M G A :=
  fun g => match o with
           | Returned a => Returned (a, g)
           | Raised e => Raised e
           end.

(** The body of the leakage loop (lines 493-496). *)
Definition leakage_step (current_leakage : R) (i : Z) (forecast_leakage : list R)
  : M G (list R) :=
  n <- normal 0 0.5 ;;
  let predicted := (current_leakage - IZR i * 0.05 + n)%R in
  ret (forecast_leakage ++ [Rmax 10 predicted]).

(** The body of the demand loop (lines 532-536). *)
Definition demand_step (i : Z) (forecast_demand : list R) : M G (list R) :=
  let seasonal_factor := (1 + 0.2 * sin (2 * PI * IZR i / 365))%R in
  n <- normal 0 0.1 ;;
  let predicted := (IZR base_demand * seasonal_factor * (1 + n))%R in
  ret (forecast_demand ++ [predicted]).

(** Lines 483-542, without the drawing. *)
Definition forecasts (df_filtered : list KpiRecord) : M G Forecasts :=
  dates <- of_outcome
             (date_range_periods (series_max (map date df_filtered)) 30) ;;
  let future_dates := skipn 1 dates in
  current_leakage <- of_outcome (iloc_last (map leakage_rate df_filtered)) ;;
  forecast_leakage <- for_in (range 30) (leakage_step current_leakage) [] ;;
  forecast_demand <- for_in (range 30) demand_step [] ;;
  ret {| future_dates := future_dates;
         forecast_leakage := forecast_leakage;
         history_dates := last_n 30 (map date df_filtered);
         history_leakage := last_n 30 (map leakage_rate df_filtered);
         forecast_demand := forecast_demand;
         demand_history := historical_demand |}.

End Analytics.

(** ** A replayed source of randomness

    A world that replays recorded draws: standard-normal deviates, raw
    integers, unit-interval fractions and indices, with a clock that ticks
    at every reading. An exhausted recording replays zeros. *)

Record Replay : Type := {
  normals : list R;
  ints : list Z;
  fractions : list R;
  picks : list nat;
  clock : Z
}.

Definition replay_normal (loc scale : R) : M Replay R :=
  fun g =>
    if Rlt_dec scale 0 then Raised ValueError
    else Returned ((loc + scale * hd 0 (normals g))%R,
                   {| normals := tl (normals g); ints := ints g;
                      fractions := fractions g; picks := picks g;
                      clock := clock g |}).

Definition replay_randint (low high : Z) : M Replay Z :=
  fun g =>
    if low <? high
    then Returned (low + hd 0 (ints g) mod (high - low),
                   {| normals := normals g; ints := tl (ints g);
                      fractions := fractions g; picks := picks g;
                      clock := clock g |})
    else Raised ValueError.

Definition replay_uniform (low high : R) : M Replay R :=
  fun g =>
    Returned ((low + (high - low) * Rmin 1 (Rmax 0 (hd 0 (fractions g))))%R,
              {| normals := normals g; ints := ints g;
                 fractions := tl (fractions g); picks := picks g;
                 clock := clock g |}).

Definition replay_choice (a : list string) (p : list R) : M Replay string :=
  fun g =>
    match a with
    | [] => Raised ValueError
    | x :: _ =>
        if negb (length p =? length a)%nat then Raised ValueError
        else if existsb (fun q => if Rlt_dec q 0 then true else false) p
        then Raised ValueError
        else if Req_dec_T (Rsum p) 1
        then Returned (nth (hd 0%nat (picks g) mod length a) a x,
                       {| normals := normals g; ints := ints g;
                          fractions := fractions g; picks := tl (picks g);
                          clock := clock g |})
        else Raised ValueError
    end.

Definition replay_now : M Replay Z :=
  fun g =>
    Returned (clock g,
              {| normals := normals g; ints := ints g;
                 fractions := fractions g; picks := picks g;
                 clock := clock g + 1 |}).

#[export] Instance replay_world : World Replay := {
  normal := replay_normal;
  randint := replay_randint;
  uniform := replay_uniform;
  choice := replay_choice;
  datetime_now := replay_now
}.

(** The empty recording, read at 2024-06-15 12:00:00. *)
Definition replay_zero : Replay :=
  {| normals := []; ints := []; fractions := []; picks := [];
     clock := timedelta (days_from_civil 2024 6 15) + 43200000000 |}.

(** A recording whose first deviate is ten standard deviations high. *)
Definition replay_high : Replay :=
  {| normals := [10%R]; ints := []; fractions := []; picks := [];
     clock := clock replay_zero |}.

(** ** Properties named by the specification *)

(** The clamp the code applies to each metric. *)
Definition within_clamps (r : KpiRecord) : Prop :=
  (20 <= reservoir_level r)%R /\
  (10 <= leakage_rate r)%R /\
  (80 <= pump_uptime r <= 100)%R /\
  (70 <= billing_efficiency r <= 100)%R /\
  (1 <= energy_cost r)%R /\
  (85 <= compliance r <= 100)%R /\
  (60 <= csat r <= 100)%R.

(** "Q2 of the final year in range". *)
Definition quarter (date : Timestamp) : Z := (month date - 1) / 3 + 1.
Definition shock_window (date : Timestamp) : bool :=
  (year date =? year range_end) && (quarter date =? 2).

(** The seasonal and trend parts of the bases, without the shock. *)
Definition reservoir_seasonal (date : Timestamp) : R :=
  (75 + 20 * sin (2 * PI * IZR (tm_yday date) / 365))%R.
Definition energy_trend (date : Timestamp) : R :=
  (2.5 + IZR (year date - 2022) * 0.3)%R.

(** An anchor list the specification calls well formed: distinct city
    names, latitudes and longitudes in range. *)
Definition coordinates_in_range (loc : Location) : Prop :=
  (-90 <= loc_lat loc <= 90)%R /\ (-180 <= loc_lon loc <= 180)%R.
Definition well_formed_anchors (locations : list Location) : Prop :=
  NoDup (map loc_city locations) /\ Forall coordinates_in_range locations.

(** An incident generated around the anchor [loc]. *)
Definition incident_of (loc : Location) (r : GeoRow) : Prop :=
  city r = loc_city loc /\
  In (type r) incident_types /\
  In (severity r) severities /\
  (Rabs (lat r - loc_lat loc) <= 0.1)%R /\
  (Rabs (lon r - loc_lon loc) <= 0.1)%R.

(** What the specification requires of every generated incident: type and
    severity from the fixed sets, exactly one anchor of [locations] with the
    incident's city, and both coordinates within 0.1 degree of it. *)
Definition incident_invariant (r : GeoRow) : Prop :=
  In (type r) incident_types /\
  In (severity r) severities /\
  exists loc,
    (In loc locations /\ loc_city loc = city r) /\
    (forall loc', In loc' locations -> loc_city loc' = city r -> loc' = loc) /\
    (Rabs (lat r - loc_lat loc) <= 0.1)%R /\
    (Rabs (lon r - loc_lon loc) <= 0.1)%R.

(** The predicates the three map filters test. *)
Definition type_pred (incident_filter : string) (r : GeoRow) : bool :=
  (incident_filter =? "All")%string || (type r =? incident_filter)%string.
Definition severity_pred (severity_filter : string) (r : GeoRow) : bool :=
  (severity_filter =? "All")%string || (severity r =? severity_filter)%string.
Definition days_pred (cutoff_date : Z) (r : GeoRow) : bool :=
  cutoff_date <=? timestamp r.

(** Applying a list of filter steps, first to last. *)
Definition apply_steps {A : Type} (steps : list (list A -> list A)) (df : list A)
  : list A :=
  fold_left (fun df step => step df) steps df.

(** A step that keeps the rows passing some test, in order. *)
Definition filtering {A : Type} (step : list A -> list A) : Prop :=
  exists p, forall df, step df = List.filter p df.

(** Two small tables for examples. *)
Definition sample_kpis : list KpiRecord := [
  {| date := days_from_civil 2024 1 1; reservoir_level := 76%R;
     leakage_rate := 21%R; pump_uptime := 95%R; billing_efficiency := 85%R;
     energy_cost := 3.1%R; compliance := 96%R; csat := 78%R |};
  {| date := days_from_civil 2024 1 2; reservoir_level := 77%R;
     leakage_rate := 20%R; pump_uptime := 94%R; billing_efficiency := 86%R;
     energy_cost := 3.2%R; compliance := 97%R; csat := 79%R |};
  {| date := days_from_civil 2024 1 3; reservoir_level := 78%R;
     leakage_rate := 22%R; pump_uptime := 96%R; billing_efficiency := 84%R;
     energy_cost := 3.0%R; compliance := 95%R; csat := 77%R |}
].

Definition sample_geo : list GeoRow := [
  {| lat := (-26.2)%R; lon := 28.0%R; city := "Johannesburg";
     type := "pipe_burst"; severity := "High";
     timestamp := clock replay_zero - timedelta 2;
     color := None; size := None |};
  {| lat := (-29.8)%R; lon := 31.0%R; city := "Durban";
     type := "pump_outage"; severity := "Low";
     timestamp := clock replay_zero - timedelta 10;
     color := None; size := None |};
  {| lat := (-33.9)%R; lon := 18.4%R; city := "Cape Town";
     type := "pipe_burst"; severity := "High";
     timestamp := clock replay_zero - timedelta 20;
     color := None; size := None |}
].

(** A script state that holds both tables: [df_kpis] is object 0 and
    [df_geo] is object 1. *)
Definition sample_process : Process Replay :=
  {| world := replay_zero;
     heap := <[0%nat := KpiFrame sample_kpis]>
               (<[1%nat := GeoFrame sample_geo]> ∅) |}.

(** In the state [p], [l] is a view made since the state whose objects were
    [h0]: those objects are all as they were, and [l] is none of them. *)
Definition view_of {G : Type} (h0 : gmap ref Frame) (p : Process G) (l : ref)
  (rows : list GeoRow) : Prop :=
  h0 ⊆ heap p /\ h0 !! l = None /\ heap p !! l = Some (GeoFrame rows).

(** An incident row as the loop body stamps it: some reading of the clock,
    less a whole number of days from 0 to 29. *)
Definition stamped {G : Type} `{World G} (r : GeoRow) : Prop :=
  exists (g g' : G) (now days : Z),
    datetime_now g = Returned (now, g') /\
    0 <= days < 30 /\
    timestamp r = now - timedelta days.

(** The rows of one anchor's block. *)
Definition block_of {G : Type} `{World G} (loc : Location) (bs : list GeoRow)
  : Prop :=
  (5 <= length bs <= 14)%nat /\
  map city bs = repeat (loc_city loc) (length bs) /\
  Forall (fun r => incident_of loc r /\ stamped r) bs.

(** The worlds a loop passes through: [P x g b g'] relates the item [x], the
    world [g] before its turn, what the turn appends and the world [g']
    after it; the turns follow one another from [g] to [g']. *)
Fixpoint threaded {G A B : Type} (P : A -> G -> B -> G -> Prop)
  (g : G) (xs : list A) (bs : list B) (g' : G) : Prop :=
  match xs, bs with
  | [], [] => g' = g
  | x :: xs', b :: bs' => exists g1, P x g b g1 /\ threaded P g1 xs' bs' g'
  | _, _ => False
  end.

(** The KPI row of the date [d], generated from the world [g]: its seven
    noise terms are the seven draws made from [g] on, in the order of the
    loop body, and each metric is the clamp of its seasonal or trend value,
    shifted when (and only when) [d] is in the shock window, plus its own
    noise term. *)
Definition row_drawn {G : Type} `{World G} (d : Timestamp) (g : G)
  (r : KpiRecord) (g' : G) : Prop :=
  exists (n1 n2 n3 n4 n5 n6 n7 : R) (g1 g2 g3 g4 g5 g6 : G),
    normal 0 5 g = Returned (n1, g1) /\
    normal 0 2 g1 = Returned (n2, g2) /\
    normal 0 3 g2 = Returned (n3, g3) /\
    normal 0 5 g3 = Returned (n4, g4) /\
    normal 0 0.2 g4 = Returned (n5, g5) /\
    normal 0 2 g5 = Returned (n6, g6) /\
    normal 0 4 g6 = Returned (n7, g') /\
    r = {| date := d;
           reservoir_level :=
             Rmax 20 (reservoir_seasonal d
                      - (if shock_window d then 15 else 0) + n1);
           leakage_rate := Rmax 10 (IZR (25 - (year d - 2022) * 2) + n2);
           pump_uptime :=
             Rmin 100 (Rmax 80 (95 - (if shock_window d then 5 else 0) + n3));
           billing_efficiency := Rmin 100 (Rmax 70 (85 + n4));
           energy_cost :=
             Rmax 1 (energy_trend d * (if shock_window d then 1.4 else 1) + n5);
           compliance := Rmin 100 (Rmax 85 (96 + n6));
           csat :=
             Rmin 100 (Rmax 60 (78 - (if shock_window d then 3 else 0) + n7))
        |}%R.

(** The incident built around [loc] from the world [g]: its type, offsets
    and severity are the four draws made from [g] on, then the clock is read
    and the day count drawn; the timestamp is that reading less that many
    days. *)
Definition incident_drawn {G : Type} `{World G} (loc : Location) (_ : Z)
  (g : G) (r : GeoRow) (g' : G) : Prop :=
  exists (incident_type severity : string) (lat_offset lon_offset : R)
         (now days : Z) (g1 g2 g3 g4 g5 : G),
    choice incident_types [0.4; 0.3; 0.3]%R g = Returned (incident_type, g1) /\
    uniform (-0.1) 0.1 g1 = Returned (lat_offset, g2) /\
    uniform (-0.1) 0.1 g2 = Returned (lon_offset, g3) /\
    choice severities [0.2; 0.5; 0.3]%R g3 = Returned (severity, g4) /\
    datetime_now g4 = Returned (now, g5) /\
    randint 0 30 g5 = Returned (days, g') /\
    0 <= days <= 29 /\
    r = {| lat := (loc_lat loc + lat_offset)%R;
           lon := (loc_lon loc + lon_offset)%R;
           city := loc_city loc;
           type := incident_type;
           severity := severity;
           timestamp := now - days * 86400000000;
           color := None;
           size := None |} /\
    now - 30 * 86400000000 < timestamp r <= now.

(** The block of one anchor, generated from the world [g]: the count is
    drawn first, then that many incidents are built one after another. *)
Definition block_drawn {G : Type} `{World G} (loc : Location) (g : G)
  (bs : list GeoRow) (g' : G) : Prop :=
  exists (n : Z) (g1 : G),
    randint 5 15 g = Returned (n, g1) /\
    threaded (incident_drawn loc) g1 (range n) bs g'.

(** ** The monad and the loop *)

Lemma bind_returned {G A B : Type} (c : M G A) (k : A -> M G B) (g g' : G) (a : A) :
  c g = Returned (a, g') -> bind c k g = k a g'.
Proof. intros E. unfold bind. now rewrite E. Qed.

Lemma for_in_extends {G A B : Type} (P : A -> list B -> Prop)
  (body : A -> list B -> M G (list B)) :
  (forall x acc g, exists bs g', body x acc g = Returned (acc ++ bs, g') /\ P x bs) ->
  forall xs acc g,
    exists bss g', for_in xs body acc g = Returned (acc ++ concat bss, g') /\
                   Forall2 P xs bss.
Proof.
  intros Hbody xs. induction xs as [|x xs IH]; intros acc g.
  - exists [], g. simpl. rewrite app_nil_r. split; [reflexivity | constructor].
  - destruct (Hbody x acc g) as (bs & g1 & E & HP).
    destruct (IH (acc ++ bs) g1) as (bss & g2 & E2 & HF).
    exists (bs :: bss), g2. split.
    + simpl. rewrite (bind_returned _ _ _ _ _ E), E2. simpl.
      now rewrite app_assoc.
    + now constructor.
Qed.

Lemma for_in_appends {G A B : Type} (P : A -> B -> Prop)
  (body : A -> list B -> M G (list B)) :
  (forall x acc g, exists b g', body x acc g = Returned (acc ++ [b], g') /\ P x b) ->
  forall xs acc g,
    exists bs g', for_in xs body acc g = Returned (acc ++ bs, g') /\
                  Forall2 P xs bs.
Proof.
  intros Hbody xs. induction xs as [|x xs IH]; intros acc g.
  - exists [], g. simpl. rewrite app_nil_r. split; [reflexivity | constructor].
  - destruct (Hbody x acc g) as (b & g1 & E & HP).
    destruct (IH (acc ++ [b]) g1) as (bs & g2 & E2 & HF).
    exists (b :: bs), g2. split.
    + simpl. rewrite (bind_returned _ _ _ _ _ E), E2.
      now rewrite <- app_assoc.
    + now constructor.
Qed.

Lemma for_in_threaded {G A B : Type} (P : A -> G -> B -> G -> Prop)
  (body : A -> list B -> M G (list B)) :
  (forall x acc g,
     exists b g', body x acc g = Returned (acc ++ [b], g') /\ P x g b g') ->
  forall xs acc g,
    exists bs g', for_in xs body acc g = Returned (acc ++ bs, g') /\
                  threaded P g xs bs g'.
Proof.
  intros Hbody xs. induction xs as [|x xs IH]; intros acc g.
  - exists [], g. simpl. rewrite app_nil_r. split; reflexivity.
  - destruct (Hbody x acc g) as (b & g1 & E & HP).
    destruct (IH (acc ++ [b]) g1) as (bs & g2 & E2 & HT).
    exists (b :: bs), g2. split.
    + simpl. rewrite (bind_returned _ _ _ _ _ E), E2.
      now rewrite <- app_assoc.
    + simpl. exists g1. split; assumption.
Qed.

Lemma for_in_threaded_blocks {G A B : Type}
  (P : A -> G -> list B -> G -> Prop) (body : A -> list B -> M G (list B)) :
  (forall x acc g,
     exists bs g', body x acc g = Returned (acc ++ bs, g') /\ P x g bs g') ->
  forall xs acc g,
    exists bss g', for_in xs body acc g = Returned (acc ++ concat bss, g') /\
                   threaded P g xs bss g'.
Proof.
  intros Hbody xs. induction xs as [|x xs IH]; intros acc g.
  - exists [], g. simpl. rewrite app_nil_r. split; reflexivity.
  - destruct (Hbody x acc g) as (bs & g1 & E & HP).
    destruct (IH (acc ++ bs) g1) as (bss & g2 & E2 & HT).
    exists (bs :: bss), g2. split.
    + simpl. rewrite (bind_returned _ _ _ _ _ E), E2. simpl.
      now rewrite app_assoc.
    + simpl. exists g1. split; assumption.
Qed.

(** ** The replayed world obeys the laws *)

#[export] Instance replay_laws : WorldLaws Replay.
Proof.
  split.
  - intros loc scale g Hs. simpl. unfold replay_normal.
    destruct (Rlt_dec scale 0) as [Hlt|_]; [lra|]. eauto.
  - intros low high g Hlt. simpl. unfold replay_randint.
    apply Z.ltb_lt in Hlt as Hb. rewrite Hb.
    eexists _, _. split; [reflexivity|].
    pose proof (Z.mod_pos_bound (hd 0 (ints g)) (high - low)). lia.
  - intros low high g Hle. simpl. unfold replay_uniform.
    eexists _, _. split; [reflexivity|].
    set (u := Rmin 1 (Rmax 0 (hd 0%R (fractions g)))).
    assert (0 <= u <= 1)%R as Hu.
    { unfold u, Rmin, Rmax. repeat destruct (Rle_dec _ _); lra. }
    nra.
  - intros a p g Ha Hlen Hpos Hsum. simpl. unfold replay_choice.
    destruct a as [|x a]; [congruence|].
    rewrite Hlen, Nat.eqb_refl. simpl negb. cbv iota.
    replace (existsb (fun q => if Rlt_dec q 0 then true else false) p)
      with false.
    2:{ symmetry. clear -Hpos. induction Hpos as [|q p Hq _ IH]; simpl.
        - reflexivity.
        - destruct (Rlt_dec q 0); [lra | exact IH]. }
    destruct (Req_dec_T (Rsum p) 1) as [_|Hne]; [|contradiction].
    eexists _, _. split; [reflexivity|].
    apply nth_In. apply Nat.mod_upper_bound. simpl. lia.
  - intros g. simpl. unfold replay_now. eauto.
Qed.

(** ** The KPI generator *)

Ltac clamp := unfold Rmax, Rmin; repeat destruct (Rle_dec _ _); lra.

Lemma date_range_length (start end_ : Timestamp) :
  length (date_range start end_) = Z.to_nat (end_ - start + 1).
Proof. unfold date_range. now rewrite length_map, length_seq. Qed.

Lemma date_range_nth (start end_ : Timestamp) (i : nat) :
  (i < Z.to_nat (end_ - start + 1))%nat ->
  nth i (date_range start end_) 0 = start + Z.of_nat i.
Proof.
  intros Hi. unfold date_range.
  rewrite (nth_indep _ 0 ((fun i => start + Z.of_nat i) 0%nat))
    by now rewrite length_map, length_seq.
  rewrite (map_nth (fun i => start + Z.of_nat i)), seq_nth by assumption.
  reflexivity.
Qed.

Lemma date_range_cons (start end_ : Timestamp) :
  start <= end_ ->
  date_range start end_ = start :: date_range (start + 1) end_.
Proof.
  intros Hle. unfold date_range.
  replace (Z.to_nat (end_ - start + 1)) with (S (Z.to_nat (end_ - (start + 1) + 1))) by lia.
  rewrite <- cons_seq. simpl. rewrite Z.add_0_r. f_equal.
  rewrite <- seq_shift, map_map. apply map_ext. intros i. lia.
Qed.

Lemma date_range_empty (start end_ : Timestamp) :
  end_ < start -> date_range start end_ = [].
Proof.
  intros Hlt. unfold date_range.
  now replace (Z.to_nat (end_ - start + 1)) with 0%nat by lia.
Qed.

Lemma date_range_sorted (start end_ : Timestamp) :
  StronglySorted Z.lt (date_range start end_).
Proof.
  unfold date_range. generalize (Z.to_nat (end_ - start + 1)) as n.
  generalize 0%nat as k. intros k n. revert k.
  induction n as [|n IH]; intros k; simpl; constructor.
  - apply IH.
  - apply List.Forall_forall. intros d Hd.
    apply in_map_iff in Hd as (i & <- & Hi). apply in_seq in Hi. lia.
Qed.

Section KpiFacts.
Context {G : Type} `{WorldLaws G}.

Ltac draw :=
  match goal with
  | |- context [bind (normal ?l ?s) ?k ?g] =>
      let E := fresh "E" in
      destruct (normal_returns l s g ltac:(lra)) as (? & ? & E);
      rewrite (bind_returned _ _ _ _ _ E); cbv beta
  end.

Lemma kpi_row_spec (d : Timestamp) (acc : list KpiRecord) (g : G) :
  exists r g', kpi_row d acc g = Returned (acc ++ [r], g') /\
               date r = d /\ within_clamps r.
Proof.
  unfold kpi_row. cbv zeta. do 7 draw.
  eexists _, _. split; [reflexivity|]. split; [reflexivity|].
  unfold within_clamps. simpl. repeat split; clamp.
Qed.

Lemma kpi_data_spec (dates : list Timestamp) (g : G) :
  exists df g', kpi_data dates g = Returned (df, g') /\
                map date df = dates /\ Forall within_clamps df.
Proof.
  destruct (for_in_appends (fun d r => date r = d /\ within_clamps r)
              kpi_row kpi_row_spec dates [] g) as (df & g' & E & HF).
  exists df, g'. split; [exact E|].
  clear E. induction HF as [|d r ds rs [Hd Hc] HF [IH1 IH2]]; simpl.
  - split; constructor.
  - split; [now rewrite Hd, IH1 | now constructor].
Qed.

End KpiFacts.

Lemma sorted_lt_NoDup (l : list Z) : StronglySorted Z.lt l -> NoDup l.
Proof.
  induction 1 as [|x l Hs IH Hx]; constructor; [|exact IH].
  intros Hin. rewrite List.Forall_forall in Hx.
  apply list_elem_of_In, Hx in Hin. lia.
Qed.

Lemma kpi_row_replay (d : Timestamp) (acc : list KpiRecord) (g : Replay) :
  exists r g', kpi_row d acc g = Returned (acc ++ [r], g') /\
               date r = d /\
               reservoir_level r
               = Rmax 20 (reservoir_base d + (0 + 5 * hd 0%R (normals g))).
Proof.
  unfold kpi_row, bind. simpl. unfold replay_normal. simpl.
  repeat (destruct (Rlt_dec _ 0) as [?|_]; [lra|]).
  eexists _, _. split; [reflexivity|]. split; reflexivity.
Qed.

Lemma code_predicate_is_shock_window (date : Timestamp) :
  (year date =? 2024) && in_list (month date) [4; 5; 6] = shock_window date.
Proof.
  unfold shock_window, quarter, in_list.
  change (year range_end) with 2024. f_equal. simpl.
  destruct (Z.eqb_spec ((month date - 1) / 3 + 1) 2) as [E|E];
    repeat match goal with
           | |- context [?a =? ?b] => destruct (Z.eqb_spec a b)
           end; simpl; try reflexivity;
    exfalso; Z.to_euclidean_division_equations; lia.
Qed.

(** C1 (as the code has it): generation returns a table whose dates are the
    whole range, and every row of it, in the shock window or not, has
    reservoir_level >= 20, leakage_rate >= 10, energy_cost >= 1 and
    pump_uptime in [80,100], billing_efficiency in [70,100], compliance in
    [85,100], csat in [60,100]. *)
Theorem kpi_metrics_within_clamps {G : Type} `{WorldLaws G} (g : G) :
  exists df g',
    generate_sample_data g = Returned (df, g') /\
    map date df = date_range range_start range_end /\
    Forall within_clamps df.
Proof. apply kpi_data_spec. Qed.

Lemma kpi_metrics_within_clamps_witness :
  exists df g',
    generate_sample_data replay_zero = Returned (df, g') /\
    map date df = date_range range_start range_end /\
    Forall within_clamps df.
Proof. exact (kpi_metrics_within_clamps replay_zero). Defined.

(** C1 fails as stated: with a noise draw of +50 on 2022-01-01 the
    generated reservoir_level is above 100. *)
Lemma reservoir_level_exceeds_100 :
  exists df g' r,
    generate_sample_data replay_high = Returned (df, g') /\
    In r df /\ date r = range_start /\ (100 < reservoir_level r)%R.
Proof.
  unfold generate_sample_data, kpi_data.
  rewrite date_range_cons by now vm_compute.
  destruct (kpi_row_replay range_start [] replay_high) as (r & g1 & E & Hd & Hr).
  destruct (for_in_appends (fun _ _ => True) kpi_row
              (fun d acc g => match kpi_row_spec d acc g with
                              | ex_intro _ r (ex_intro _ g' (conj E _)) =>
                                  ex_intro _ r (ex_intro _ g' (conj E I))
                              end)
              (date_range (range_start + 1) range_end) ([] ++ [r]) g1)
    as (bs & g2 & E2 & _).
  exists (([] ++ [r]) ++ bs), g2, r. repeat split.
  - simpl for_in. now rewrite (bind_returned _ _ _ _ _ E).
  - simpl. now left.
  - exact Hd.
  - rewrite Hr. simpl hd. unfold reservoir_base. cbv zeta.
    replace ((year range_start =? 2024) && in_list (month range_start) [4; 5; 6])
      with false by now vm_compute.
    pose proof (SIN_bound (2 * PI * IZR (tm_yday range_start) / 365)).
    pose proof (Rmax_r 20
      (75 + 20 * sin (2 * PI * IZR (tm_yday range_start) / 365) + (0 + 5 * 10))).
    lra.
Qed.

(** C2: over a range with start <= end the generator returns
    (end - start).days + 1 rows, the i-th dated start + i days, so the dates
    increase strictly, without gap or repetition. *)
Theorem kpi_one_row_per_day {G : Type} `{WorldLaws G}
  (start end_ : Timestamp) (g : G) :
  start <= end_ ->
  exists df g',
    kpi_data (date_range start end_) g = Returned (df, g') /\
    Z.of_nat (length df) = end_ - start + 1 /\
    (forall i, (i < length df)%nat -> nth i (map date df) 0 = start + Z.of_nat i) /\
    StronglySorted Z.lt (map date df) /\
    NoDup (map date df).
Proof.
  intros Hle.
  destruct (kpi_data_spec (date_range start end_) g) as (df & g' & E & Hd & _).
  exists df, g'. split; [exact E|].
  assert (length df = Z.to_nat (end_ - start + 1)) as Hlen.
  { now rewrite <- (length_map date), Hd, date_range_length. }
  rewrite Hd. repeat split.
  - lia.
  - intros i Hi. apply date_range_nth. lia.
  - apply date_range_sorted.
  - apply sorted_lt_NoDup, date_range_sorted.
Qed.

Lemma kpi_one_row_per_day_witness :
  exists df g',
    generate_sample_data replay_zero = Returned (df, g') /\
    Z.of_nat (length df) = range_end - range_start + 1 /\
    (forall i, (i < length df)%nat ->
               nth i (map date df) 0 = range_start + Z.of_nat i) /\
    StronglySorted Z.lt (map date df) /\
    NoDup (map date df).
Proof.
  apply (kpi_one_row_per_day range_start range_end replay_zero).
  vm_compute. discriminate.
Defined.

(** The four inline tests of the loop body are one predicate: on a date in
    the shock window the four bases shift together, on any other date none
    of them does; the leakage base never depends on it. *)
Lemma bases_shift_together (date : Timestamp) :
  (shock_window date = true /\
   reservoir_base date = (reservoir_seasonal date - 15)%R /\
   pump_base date = (95 - 5)%R /\
   (energy_base date = energy_trend date * 1.4 /\
    energy_trend date < energy_base date)%R /\
   csat_base date = (78 - 3)%R /\
   leakage_base date = IZR (25 - (year date - 2022) * 2))
  \/
  (shock_window date = false /\
   reservoir_base date = reservoir_seasonal date /\
   pump_base date = 95%R /\
   energy_base date = energy_trend date /\
   csat_base date = 78%R /\
   leakage_base date = IZR (25 - (year date - 2022) * 2)).
Proof.
  unfold reservoir_base, pump_base, energy_base, csat_base, leakage_base,
    reservoir_seasonal, energy_trend. cbv zeta.
  rewrite code_predicate_is_shock_window.
  destruct (shock_window date) eqn:Hs; [left | right]; repeat split;
    try reflexivity; try (simpl; lra); try (rewrite minus_IZR; lra).
  unfold shock_window in Hs. apply andb_prop in Hs as [Hy _].
  apply Z.eqb_eq in Hy. rewrite Hy. change (year range_end) with 2024.
  rewrite minus_IZR. lra.
Qed.

Lemma bases_by_shock_window (d : Timestamp) :
  reservoir_base d
  = (reservoir_seasonal d - (if shock_window d then 15 else 0))%R /\
  pump_base d = (95 - (if shock_window d then 5 else 0))%R /\
  energy_base d = (energy_trend d * (if shock_window d then 1.4 else 1))%R /\
  csat_base d = (78 - (if shock_window d then 3 else 0))%R.
Proof.
  unfold reservoir_base, pump_base, energy_base, csat_base,
    reservoir_seasonal, energy_trend. cbv zeta.
  rewrite code_predicate_is_shock_window.
  destruct (shock_window d); repeat split;
    try (rewrite minus_IZR); lra.
Qed.

Lemma kpi_row_drawn {G : Type} `{WorldLaws G}
  (d : Timestamp) (acc : list KpiRecord) (g : G) :
  exists r g', kpi_row d acc g = Returned (acc ++ [r], g') /\ row_drawn d g r g'.
Proof.
  destruct (normal_returns 0 5 g ltac:(lra)) as (n1 & g1 & E1).
  destruct (normal_returns 0 2 g1 ltac:(lra)) as (n2 & g2 & E2).
  destruct (normal_returns 0 3 g2 ltac:(lra)) as (n3 & g3 & E3).
  destruct (normal_returns 0 5 g3 ltac:(lra)) as (n4 & g4 & E4).
  destruct (normal_returns 0 0.2 g4 ltac:(lra)) as (n5 & g5 & E5).
  destruct (normal_returns 0 2 g5 ltac:(lra)) as (n6 & g6 & E6).
  destruct (normal_returns 0 4 g6 ltac:(lra)) as (n7 & g7 & E7).
  destruct (bases_by_shock_window d) as (Hr & Hp & He & Hc).
  unfold kpi_row. cbv zeta.
  rewrite (bind_returned _ _ _ _ _ E1), (bind_returned _ _ _ _ _ E2),
    (bind_returned _ _ _ _ _ E3), (bind_returned _ _ _ _ _ E4),
    (bind_returned _ _ _ _ _ E5), (bind_returned _ _ _ _ _ E6),
    (bind_returned _ _ _ _ _ E7).
  eexists _, g7. split; [reflexivity|].
  exists n1, n2, n3, n4, n5, n6, n7, g1, g2, g3, g4, g5, g6.
  repeat (split; [assumption|]).
  rewrite Hr, Hp, He, Hc. reflexivity.
Qed.

(** C3: every row of the generated table is built from one date predicate,
    Q2 of the final year of the range, which is the test the loop body
    writes four times: with the noise terms being the seven draws of the
    row, in the shock window the reservoir level is computed from a base 15
    lower, the pump uptime from a base 5 lower, the energy cost from a base
    1.4 times its (positive) trend value and so higher, and the satisfaction
    from a base 3 lower, all four together; on every other date from the
    unshifted bases; leakage, billing and compliance never depend on it. *)
Theorem shock_applies_to_generated_rows {G : Type} `{WorldLaws G} (g : G) :
  (exists df g',
     generate_sample_data g = Returned (df, g') /\
     threaded row_drawn g (date_range range_start range_end) df g') /\
  (forall d, (year d =? 2024) && in_list (month d) [4; 5; 6] = shock_window d) /\
  (forall d, shock_window d = true ->
             (0 < energy_trend d < energy_trend d * 1.4)%R).
Proof.
  split; [|split].
  - apply (for_in_threaded row_drawn kpi_row kpi_row_drawn
             (date_range range_start range_end) [] g).
  - exact code_predicate_is_shock_window.
  - intros d Hs. unfold shock_window in Hs. apply andb_prop in Hs as [Hy _].
    apply Z.eqb_eq in Hy. unfold energy_trend. rewrite Hy.
    change (year range_end) with 2024. rewrite minus_IZR. lra.
Qed.

Lemma shock_applies_to_generated_rows_witness :
  (exists df g',
     generate_sample_data replay_zero = Returned (df, g') /\
     threaded row_drawn replay_zero (date_range range_start range_end) df g') /\
  (forall d, (year d =? 2024) && in_list (month d) [4; 5; 6] = shock_window d) /\
  (forall d, shock_window d = true ->
             (0 < energy_trend d < energy_trend d * 1.4)%R).
Proof. exact (shock_applies_to_generated_rows replay_zero). Defined.

(** With the empty recording every noise term is zero, so the rows show
    the bases: the same calendar day inside and outside the shock window. *)

Ltac replay_draw E :=
  simpl in E; unfold replay_normal in E;
  match type of E with
  | context [Rlt_dec ?a ?b] => destruct (Rlt_dec a b); [lra|]
  end;
  injection E as <- <-.

Example row_of_2024_05_17_is_shocked :
  exists r g',
    kpi_row (days_from_civil 2024 5 17) [] replay_zero = Returned ([r], g') /\
    pump_uptime r = 90%R /\ csat r = 75%R /\ energy_cost r = 4.34%R /\
    reservoir_level r
    = (reservoir_seasonal (days_from_civil 2024 5 17) - 15)%R.
Proof.
  destruct (kpi_row_drawn (days_from_civil 2024 5 17) [] replay_zero)
    as (r & g' & E & n1 & n2 & n3 & n4 & n5 & n6 & n7 & g1 & g2 & g3 & g4 & g5
        & g6 & E1 & E2 & E3 & E4 & E5 & E6 & E7 & ->).
  eexists _, g'. split; [exact E|].
  replay_draw E1. replay_draw E2. replay_draw E3. replay_draw E4.
  replay_draw E5. replay_draw E6. replay_draw E7.
  cbn [pump_uptime csat energy_cost reservoir_level].
  replace (shock_window (days_from_civil 2024 5 17)) with true
    by (vm_compute; reflexivity).
  pose proof (SIN_bound
                (2 * PI * IZR (tm_yday (days_from_civil 2024 5 17)) / 365)).
  unfold energy_trend, reservoir_seasonal.
  replace (year (days_from_civil 2024 5 17)) with 2024
    by (vm_compute; reflexivity).
  simpl hd. rewrite minus_IZR.
  repeat split; clamp.
Qed.

Example row_of_2023_05_17_is_not_shocked :
  exists r g',
    kpi_row (days_from_civil 2023 5 17) [] replay_zero = Returned ([r], g') /\
    pump_uptime r = 95%R /\ csat r = 78%R /\ energy_cost r = 2.8%R /\
    reservoir_level r = reservoir_seasonal (days_from_civil 2023 5 17).
Proof.
  destruct (kpi_row_drawn (days_from_civil 2023 5 17) [] replay_zero)
    as (r & g' & E & n1 & n2 & n3 & n4 & n5 & n6 & n7 & g1 & g2 & g3 & g4 & g5
        & g6 & E1 & E2 & E3 & E4 & E5 & E6 & E7 & ->).
  eexists _, g'. split; [exact E|].
  replay_draw E1. replay_draw E2. replay_draw E3. replay_draw E4.
  replay_draw E5. replay_draw E6. replay_draw E7.
  cbn [pump_uptime csat energy_cost reservoir_level].
  replace (shock_window (days_from_civil 2023 5 17)) with false
    by (vm_compute; reflexivity).
  pose proof (SIN_bound
                (2 * PI * IZR (tm_yday (days_from_civil 2023 5 17)) / 365)).
  unfold energy_trend, reservoir_seasonal.
  replace (year (days_from_civil 2023 5 17)) with 2023
    by (vm_compute; reflexivity).
  simpl hd. rewrite minus_IZR.
  repeat split; clamp.
Qed.

(** ** The incident generator *)

Lemma NoDup_map_inj {A B : Type} (f : A -> B) (l : list A) (a b : A) :
  NoDup (map f l) -> In a l -> In b l -> f a = f b -> a = b.
Proof.
  induction l as [|x l IH]; simpl; [tauto|].
  intros Hnd Ha Hb Hf. apply NoDup_cons in Hnd as [Hx Hnd].
  rewrite list_elem_of_In in Hx.
  destruct Ha as [->|Ha], Hb as [->|Hb]; try reflexivity.
  - exfalso. apply Hx. rewrite Hf. now apply in_map.
  - exfalso. apply Hx. rewrite <- Hf. now apply in_map.
  - now apply IH.
Qed.

Lemma locations_well_formed : well_formed_anchors locations.
Proof.
  split.
  - apply (bool_decide_unpack _). vm_compute. exact I.
  - unfold locations, coordinates_in_range.
    repeat (constructor; [simpl; lra|]). constructor.
Qed.

Lemma range_length (n : Z) : length (range n) = Z.to_nat n.
Proof. unfold range. now rewrite length_map, length_seq. Qed.

Section GeoFacts.
Context {G : Type} `{WorldLaws G}.

Lemma geo_incident_spec (loc : Location) (k : Z) (acc : list GeoRow) (g : G) :
  exists r g', geo_incident loc k acc g = Returned (acc ++ [r], g') /\
               incident_of loc r.
Proof.
  unfold geo_incident.
  destruct (choice_returns incident_types [0.4; 0.3; 0.3]%R g)
    as (ty & g1 & E1 & Hty);
    [discriminate | reflexivity | repeat constructor; lra | simpl; lra |].
  destruct (uniform_returns (-0.1) 0.1 g1) as (dlat & g2 & E2 & Hlat); [lra|].
  destruct (uniform_returns (-0.1) 0.1 g2) as (dlon & g3 & E3 & Hlon); [lra|].
  destruct (choice_returns severities [0.2; 0.5; 0.3]%R g3)
    as (sv & g4 & E4 & Hsv);
    [discriminate | reflexivity | repeat constructor; lra | simpl; lra |].
  destruct (now_returns g4) as (t & g5 & E5).
  destruct (randint_returns 0 30 g5) as (days & g6 & E6 & _); [lia|].
  rewrite (bind_returned _ _ _ _ _ E1), (bind_returned _ _ _ _ _ E2),
    (bind_returned _ _ _ _ _ E3), (bind_returned _ _ _ _ _ E4),
    (bind_returned _ _ _ _ _ E5), (bind_returned _ _ _ _ _ E6).
  eexists _, _. split; [reflexivity|].
  unfold incident_of. simpl. repeat split; try assumption.
  - apply Rabs_le. lra.
  - apply Rabs_le. lra.
Qed.

Lemma geo_anchor_spec (loc : Location) (acc : list GeoRow) (g : G) :
  exists bs g', geo_anchor loc acc g = Returned (acc ++ bs, g') /\
                (Forall (incident_of loc) bs /\ (5 <= length bs < 15)%nat).
Proof.
  unfold geo_anchor.
  destruct (randint_returns 5 15 g) as (n & g1 & E1 & Hn); [lia|].
  rewrite (bind_returned _ _ _ _ _ E1).
  destruct (for_in_appends (fun _ r => incident_of loc r)
              (geo_incident loc) (geo_incident_spec loc) (range n) acc g1)
    as (bs & g2 & E2 & HF).
  exists bs, g2. split; [exact E2|].
  pose proof (Forall2_length _ _ _ HF) as Hlen. rewrite range_length in Hlen.
  split; [|lia].
  clear -HF. induction HF; constructor; assumption.
Qed.

Lemma geo_data_spec (locs : list Location) (g : G) :
  exists bss g',
    geo_data locs g = Returned (concat bss, g') /\
    Forall2 (fun loc bs => Forall (incident_of loc) bs /\
                           (5 <= length bs < 15)%nat) locs bss.
Proof. apply (for_in_extends _ geo_anchor geo_anchor_spec locs [] g). Qed.

End GeoFacts.

Lemma concat_anchored {A B : Type} (Q : A -> B -> Prop) (l : list A)
  (bss : list (list B)) :
  Forall2 (fun a bs => Forall (Q a) bs /\ (5 <= length bs < 15)%nat) l bss ->
  Forall (fun b => exists a, In a l /\ Q a b) (concat bss) /\
  (5 * length l <= length (concat bss))%nat.
Proof.
  induction 1 as [|a bs l bss [Hbs Hlen] _ [IH1 IH2]]; simpl.
  - split; [constructor | lia].
  - split.
    + apply Forall_app. split.
      * eapply List.Forall_impl; [|exact Hbs]. intros b Hb. exists a. tauto.
      * eapply List.Forall_impl; [|exact IH1]. intros b (a' & Ha' & Hb).
        exists a'. tauto.
    + rewrite length_app. lia.
Qed.

Lemma geo_data_returns {G : Type} `{WorldLaws G} (locs : list Location) (g : G) :
  exists df g',
    geo_data locs g = Returned (df, g') /\
    (5 * length locs <= length df)%nat /\
    Forall (fun r => exists loc, In loc locs /\ incident_of loc r) df.
Proof.
  destruct (geo_data_spec locs g) as (bss & g' & E & HF).
  apply concat_anchored in HF as [HF Hlen].
  exists (concat bss), g'. auto.
Qed.

(** C6: generation returns a table, and every incident of it has its type
    in {pipe_burst, pump_outage, refill_station}, its severity in
    {High, Medium, Low}, exactly one anchor of the list with its city, and a
    latitude and a longitude each within 0.1 degree of that anchor's. *)
Theorem geo_incidents_invariant {G : Type} `{WorldLaws G} (g : G) :
  exists df g',
    generate_geo_data g = Returned (df, g') /\ Forall incident_invariant df.
Proof.
  destruct (geo_data_returns locations g) as (df & g' & E & _ & HF).
  exists df, g'. split; [exact E|].
  eapply List.Forall_impl; [|exact HF].
  intros r (loc & Hin & Hc & Hty & Hsv & Hlat & Hlon).
  split; [exact Hty|]. split; [exact Hsv|].
  exists loc. repeat split; auto.
  intros loc' Hin' Hc'.
  apply (NoDup_map_inj loc_city locations loc' loc); auto.
  - apply locations_well_formed.
  - congruence.
Qed.

Lemma geo_incidents_invariant_witness :
  exists df g',
    generate_geo_data replay_zero = Returned (df, g') /\
    Forall incident_invariant df.
Proof. exact (geo_incidents_invariant replay_zero). Defined.

(** ** The filters on table values *)

Lemma boolean_index_map {A : Type} (p : A -> bool) (df : list A) :
  boolean_index df (map p df) = List.filter p df.
Proof.
  induction df as [|r df IH]; simpl; [reflexivity|].
  rewrite IH. reflexivity.
Qed.

Lemma mask_and_map {A : Type} (p q : A -> bool) (df : list A) :
  mask_and (map p df) (map q df) = map (fun r => p r && q r) df.
Proof.
  induction df as [|r df IH]; simpl; [reflexivity|]. now rewrite IH.
Qed.

Lemma filter_filter_and {A : Type} (p q : A -> bool) (l : list A) :
  List.filter p (List.filter q l) = List.filter (fun x => q x && p x) l.
Proof.
  induction l as [|x l IH]; simpl; [reflexivity|].
  destruct (q x); simpl; [destruct (p x)|]; now rewrite IH.
Qed.

Lemma filter_filter_comm {A : Type} (p q : A -> bool) (l : list A) :
  List.filter p (List.filter q l) = List.filter q (List.filter p l).
Proof.
  rewrite !filter_filter_and. apply filter_ext. intros x. apply andb_comm.
Qed.

Lemma filter_sublist {A : Type} (p : A -> bool) (l : list A) :
  sublist (List.filter p l) l.
Proof.
  induction l as [|x l IH]; simpl; [constructor|].
  destruct (p x); now constructor.
Qed.

Lemma filter_none {A : Type} (p : A -> bool) (l : list A) :
  (forall x, In x l -> p x = false) -> List.filter p l = [].
Proof.
  induction l as [|x l IH]; simpl; intros Hp; [reflexivity|].
  rewrite (Hp x) by now left. apply IH. intros y Hy. apply Hp. now right.
Qed.

Lemma df_filtered_is_filter (d0 d1 : Timestamp) (df_kpis : list KpiRecord) :
  df_filtered [d0; d1] df_kpis
  = List.filter (fun r => (d0 <=? date r) && (date r <=? d1)) df_kpis.
Proof.
  unfold df_filtered, date_mask. now rewrite mask_and_map, boolean_index_map.
Qed.

Lemma filter_type_filtering (incident_filter : string) (df : list GeoRow) :
  filter_type incident_filter df = List.filter (type_pred incident_filter) df.
Proof.
  unfold filter_type, type_pred.
  destruct (incident_filter =? "All")%string; simpl.
  - induction df as [|r df IH]; simpl; congruence.
  - apply boolean_index_map.
Qed.

Lemma filter_severity_filtering (severity_filter : string) (df : list GeoRow) :
  filter_severity severity_filter df
  = List.filter (severity_pred severity_filter) df.
Proof.
  unfold filter_severity, severity_pred.
  destruct (severity_filter =? "All")%string; simpl.
  - induction df as [|r df IH]; simpl; congruence.
  - apply boolean_index_map.
Qed.

Lemma filter_days_filtering (cutoff_date : Z) (df : list GeoRow) :
  filter_days cutoff_date df = List.filter (days_pred cutoff_date) df.
Proof. apply boolean_index_map. Qed.

Lemma apply_steps_permutation {A : Type} (steps steps' : list (list A -> list A)) :
  Permutation steps steps' ->
  Forall filtering steps ->
  forall df, apply_steps steps df = apply_steps steps' df.
Proof.
  unfold apply_steps.
  induction 1 as [|f l l' _ IH|f f' l|l l' l'' Hp IH Hp' IH'];
    intros HF df; simpl.
  - reflexivity.
  - apply IH. now inversion HF.
  - inversion HF as [|? ? [p Hf'] HF']. inversion HF' as [|? ? [q Hf] _].
    now rewrite Hf, Hf', Hf, Hf', filter_filter_comm.
  - rewrite IH by exact HF. apply IH'.
    rewrite List.Forall_forall in *. intros f Hf. apply HF.
    eapply Permutation_in; [symmetry; exact Hp | exact Hf].
Qed.

Lemma source_order_is_conjunction
  (incident_filter severity_filter : string) (cutoff_date : Z)
  (df_geo : list GeoRow) :
  apply_steps [filter_type incident_filter; filter_severity severity_filter;
               filter_days cutoff_date] df_geo
  = List.filter (fun r => type_pred incident_filter r &&
                          severity_pred severity_filter r &&
                          days_pred cutoff_date r) df_geo.
Proof.
  unfold apply_steps. simpl.
  rewrite filter_days_filtering, filter_severity_filtering,
    filter_type_filtering, !filter_filter_and.
  apply filter_ext. intros r. apply andb_assoc.
Qed.

(** C5: on any incident table and for any filter values, the type, severity
    and recency filters applied in any order give the rows that pass all
    three tests, which is what the view of the map tab holds before its
    colour and size columns are added; on any KPI table the date mask gives
    the rows that pass both bound tests, in whichever order the two bounds
    are applied. *)
Theorem filters_commute_as_conjunction
  (incident_filter severity_filter : string) (cutoff_date : Z)
  (df_geo : list GeoRow) (d0 d1 : Timestamp) (df_kpis : list KpiRecord)
  (steps : list (list GeoRow -> list GeoRow)) :
  Permutation steps [filter_type incident_filter;
                     filter_severity severity_filter;
                     filter_days cutoff_date] ->
  apply_steps steps df_geo
  = List.filter (fun r => type_pred incident_filter r &&
                          severity_pred severity_filter r &&
                          days_pred cutoff_date r) df_geo /\
  df_geo_filtered incident_filter severity_filter cutoff_date df_geo
  = map set_size (map set_color (apply_steps steps df_geo)) /\
  df_filtered [d0; d1] df_kpis
  = List.filter (fun r => (d0 <=? date r) && (date r <=? d1)) df_kpis /\
  df_filtered [d0; d1] df_kpis
  = List.filter (fun r => date r <=? d1)
      (List.filter (fun r => d0 <=? date r) df_kpis) /\
  df_filtered [d0; d1] df_kpis
  = List.filter (fun r => d0 <=? date r)
      (List.filter (fun r => date r <=? d1) df_kpis).
Proof.
  intros Hp.
  assert (apply_steps steps df_geo
          = List.filter (fun r => type_pred incident_filter r &&
                                  severity_pred severity_filter r &&
                                  days_pred cutoff_date r) df_geo) as Hsteps.
  { rewrite (apply_steps_permutation _ _ Hp).
    - apply source_order_is_conjunction.
    - rewrite List.Forall_forall. intros f Hf.
      apply (Permutation_in _ Hp) in Hf.
      destruct Hf as [<-|[<-|[<-|[]]]].
      + exists (type_pred incident_filter). apply filter_type_filtering.
      + exists (severity_pred severity_filter). apply filter_severity_filtering.
      + exists (days_pred cutoff_date). apply filter_days_filtering. }
  split; [exact Hsteps|]. split.
  - rewrite Hsteps, <- source_order_is_conjunction. reflexivity.
  - rewrite df_filtered_is_filter. repeat split.
    + now rewrite filter_filter_and.
    + rewrite filter_filter_and. apply filter_ext. intros r. apply andb_comm.
Qed.

Lemma filters_commute_as_conjunction_witness :
  apply_steps [filter_days (clock replay_zero - timedelta 7);
               filter_type "pipe_burst";
               filter_severity "All"] sample_geo
  = List.filter (fun r => type_pred "pipe_burst" r &&
                          severity_pred "All" r &&
                          days_pred (clock replay_zero - timedelta 7) r)
      sample_geo /\
  df_geo_filtered "pipe_burst" "All" (clock replay_zero - timedelta 7) sample_geo
  = map set_size (map set_color
      (apply_steps [filter_days (clock replay_zero - timedelta 7);
                    filter_type "pipe_burst";
                    filter_severity "All"] sample_geo)) /\
  df_filtered [days_from_civil 2024 1 2; days_from_civil 2024 1 3] sample_kpis
  = List.filter (fun r => (days_from_civil 2024 1 2 <=? date r) &&
                          (date r <=? days_from_civil 2024 1 3)) sample_kpis /\
  df_filtered [days_from_civil 2024 1 2; days_from_civil 2024 1 3] sample_kpis
  = List.filter (fun r => date r <=? days_from_civil 2024 1 3)
      (List.filter (fun r => days_from_civil 2024 1 2 <=? date r) sample_kpis) /\
  df_filtered [days_from_civil 2024 1 2; days_from_civil 2024 1 3] sample_kpis
  = List.filter (fun r => days_from_civil 2024 1 2 <=? date r)
      (List.filter (fun r => date r <=? days_from_civil 2024 1 3) sample_kpis).
Proof.
  apply (filters_commute_as_conjunction "pipe_burst" "All"
           (clock replay_zero - timedelta 7) sample_geo
           (days_from_civil 2024 1 2) (days_from_civil 2024 1 3) sample_kpis).
  eapply perm_trans; [apply perm_swap|]. apply perm_skip, perm_swap.
Defined.

(** C7: the date-range filter keeps exactly the rows with
    lower <= date <= upper, in the order of the table, and yields the empty
    table (it has no failing case) when the range is empty or no row of the
    table lies in it. *)
Theorem date_filter_inclusive_ordered
  (lower upper : Timestamp) (df_kpis : list KpiRecord) :
  df_filtered [lower; upper] df_kpis
  = List.filter (fun r => (lower <=? date r) && (date r <=? upper)) df_kpis /\
  (forall r, In r (df_filtered [lower; upper] df_kpis) <->
             In r df_kpis /\ lower <= date r <= upper) /\
  sublist (df_filtered [lower; upper] df_kpis) df_kpis /\
  (upper < lower -> df_filtered [lower; upper] df_kpis = []) /\
  ((forall r, In r df_kpis -> date r < lower \/ upper < date r) ->
   df_filtered [lower; upper] df_kpis = []).
Proof.
  rewrite df_filtered_is_filter. split; [reflexivity|]. split; [|split; [|split]].
  - intros r. rewrite filter_In, andb_true_iff, Z.leb_le, Z.leb_le. tauto.
  - apply filter_sublist.
  - intros Hlt. apply filter_none. intros r _.
    apply andb_false_iff. rewrite !Z.leb_gt. lia.
  - intros Hout. apply filter_none. intros r Hr.
    apply andb_false_iff. rewrite !Z.leb_gt. destruct (Hout r Hr); lia.
Qed.

(** C10: for a non-empty KPI table, the current-metrics row is the last row
    of the filtered view when the view has rows, and the last row of the
    whole table when the view is empty; in both cases a row is obtained. *)
Theorem current_metrics_falls_back
  (date_range : list Timestamp) (df_kpis : list KpiRecord) :
  df_kpis <> [] ->
  exists r,
    current_metrics (df_filtered date_range df_kpis) df_kpis = Returned r /\
    ((df_filtered date_range df_kpis = [] /\ last df_kpis = Some r) \/
     (df_filtered date_range df_kpis <> [] /\
      last (df_filtered date_range df_kpis) = Some r)).
Proof.
  assert (forall df : list KpiRecord, df <> [] ->
            exists r, iloc0 (tail1 df) = Returned r /\ last df = Some r) as Hlast.
  { intros df Hne. destruct (exists_last Hne) as (l & r & ->).
    exists r. unfold tail1. rewrite length_app. simpl.
    replace (length l + 1 - 1)%nat with (length l) by lia.
    rewrite List.skipn_app, List.skipn_all, Nat.sub_diag. simpl.
    split; [reflexivity | apply last_snoc]. }
  intros Hne. unfold current_metrics.
  destruct (df_filtered date_range df_kpis) as [|r0 f] eqn:Ef; simpl.
  - destruct (Hlast df_kpis Hne) as (r & E & Hl). exists r. auto.
  - destruct (Hlast (r0 :: f)) as (r & E & Hl); [discriminate|].
    exists r. split; [exact E|]. right. split; [discriminate | exact Hl].
Qed.

Lemma current_metrics_falls_back_witness :
  exists r,
    current_metrics
      (df_filtered [days_from_civil 2025 1 1; days_from_civil 2025 1 31]
         sample_kpis) sample_kpis = Returned r /\
    ((df_filtered [days_from_civil 2025 1 1; days_from_civil 2025 1 31]
        sample_kpis = [] /\ last sample_kpis = Some r) \/
     (df_filtered [days_from_civil 2025 1 1; days_from_civil 2025 1 31]
        sample_kpis <> [] /\
      last (df_filtered [days_from_civil 2025 1 1; days_from_civil 2025 1 31]
              sample_kpis) = Some r)).
Proof.
  apply (current_metrics_falls_back
           [days_from_civil 2025 1 1; days_from_civil 2025 1 31] sample_kpis).
  discriminate.
Defined.

(** ** The filters on the store *)

Section StoreFacts.
Context {G : Type} `{WorldLaws G}.

Lemma fresh_unused (h : gmap ref Frame) : h !! fresh (dom h) = None.
Proof. apply not_elem_of_dom, is_fresh. Qed.

Lemma new_frame_spec (f : Frame) (p : Process G) :
  exists l p',
    new_frame f p = Returned (l, p') /\
    heap p !! l = None /\
    heap p' = <[l := f]> (heap p) /\
    world p' = world p.
Proof.
  eexists _, _. split; [reflexivity|]. simpl.
  split; [apply fresh_unused | split; reflexivity].
Qed.

Lemma copy_geo_spec (h0 : gmap ref Frame) (p : Process G) (df : ref)
  (rows : list GeoRow) :
  h0 ⊆ heap p -> heap p !! df = Some (GeoFrame rows) ->
  exists l p',
    copy_geo df p = Returned (l, p') /\ view_of h0 p' l rows /\
    world p' = world p.
Proof.
  intros Hsub Hdf. unfold copy_geo, bind, geo_rows. rewrite Hdf.
  destruct (new_frame_spec (GeoFrame rows) p) as (l & p' & E & Hl & Hh & Hw).
  exists l, p'. split; [exact E|]. split; [|exact Hw].
  unfold view_of. rewrite Hh. split; [|split].
  - etrans; [exact Hsub | now apply insert_subseteq].
  - eapply lookup_weaken_None; eassumption.
  - apply lookup_insert_eq.
Qed.

Lemma getitem_geo_spec (h0 : gmap ref Frame) (p : Process G) (l : ref)
  (rows : list GeoRow) (b : bool) (mask : list GeoRow -> list bool) :
  view_of h0 p l rows ->
  exists l' p',
    (if b then getitem_geo l mask else ret l) p = Returned (l', p') /\
    view_of h0 p' l'
      (if b then boolean_index rows (mask rows) else rows) /\
    world p' = world p.
Proof.
  intros (Hsub & Hfresh & Hl). destruct b.
  - unfold getitem_geo, bind, geo_rows. rewrite Hl.
    destruct (new_frame_spec (GeoFrame (boolean_index rows (mask rows))) p)
      as (l' & p' & E & Hl' & Hh & Hw).
    exists l', p'. split; [exact E|]. split; [|exact Hw].
    unfold view_of. rewrite Hh. split; [|split].
    + etrans; [exact Hsub | now apply insert_subseteq].
    + eapply lookup_weaken_None; eassumption.
    + apply lookup_insert_eq.
  - exists l, p. unfold view_of. auto.
Qed.

Lemma setitem_geo_spec (h0 : gmap ref Frame) (p : Process G) (l : ref)
  (rows : list GeoRow) (f : GeoRow -> GeoRow) :
  view_of h0 p l rows ->
  exists p',
    setitem_geo l f p = Returned (tt, p') /\
    view_of h0 p' l (map f rows) /\
    world p' = world p.
Proof.
  intros (Hsub & Hfresh & Hl).
  unfold setitem_geo, bind, geo_rows, write_frame. rewrite Hl.
  eexists. split; [reflexivity|]. split; [|reflexivity].
  unfold view_of. simpl. split; [|split].
  - now apply insert_subseteq_r.
  - exact Hfresh.
  - apply lookup_insert_eq.
Qed.

Lemma script_now_spec (h0 : gmap ref Frame) (p : Process G) (l : ref)
  (rows : list GeoRow) :
  view_of h0 p l rows ->
  exists t p',
    script_now p = Returned (t, p') /\
    datetime_now (world p) = Returned (t, world p') /\
    view_of h0 p' l rows.
Proof.
  intros Hv. destruct (now_returns (world p)) as (t & g' & E).
  exists t, {| world := g'; heap := heap p |}.
  unfold script_now. rewrite E. auto.
Qed.

Lemma filter_geo_spec (h0 : gmap ref Frame) (p : Process G) (df_geo : ref)
  (geo : list GeoRow) (incident_filter severity_filter : string)
  (days_filter : Z) :
  h0 ⊆ heap p -> heap p !! df_geo = Some (GeoFrame geo) ->
  exists view p' now,
    filter_geo df_geo incident_filter severity_filter days_filter p
    = Returned (view, p') /\
    datetime_now (world p) = Returned (now, world p') /\
    view_of h0 p' view
      (df_geo_filtered incident_filter severity_filter
         (now - timedelta days_filter) geo).
Proof.
  intros Hsub Hdf. unfold filter_geo.
  destruct (copy_geo_spec h0 p df_geo geo Hsub Hdf) as (l1 & p1 & E1 & V1 & W1).
  destruct (getitem_geo_spec h0 p1 l1 geo
              (negb (incident_filter =? "All")%string)
              (map (fun r => (type r =? incident_filter)%string)) V1)
    as (l2 & p2 & E2 & V2 & W2).
  destruct (getitem_geo_spec h0 p2 l2 _
              (negb (severity_filter =? "All")%string)
              (map (fun r => (severity r =? severity_filter)%string)) V2)
    as (l3 & p3 & E3 & V3 & W3).
  destruct (script_now_spec h0 p3 l3 _ V3) as (now & p4 & E4 & N4 & V4).
  destruct (getitem_geo_spec h0 p4 l3 _ true
              (map (fun r => now - timedelta days_filter <=? timestamp r)) V4)
    as (l5 & p5 & E5 & V5 & W5).
  destruct (setitem_geo_spec h0 p5 l5 _ set_color V5) as (p6 & E6 & V6 & W6).
  destruct (setitem_geo_spec h0 p6 l5 _ set_size V6) as (p7 & E7 & V7 & W7).
  exists l5, p7, now. split; [|split].
  - rewrite (bind_returned _ _ _ _ _ E1), (bind_returned _ _ _ _ _ E2),
      (bind_returned _ _ _ _ _ E3), (bind_returned _ _ _ _ _ E4),
      (bind_returned _ _ _ _ _ E5), (bind_returned _ _ _ _ _ E6),
      (bind_returned _ _ _ _ _ E7). reflexivity.
  - rewrite <- W1, <- W2, <- W3, N4. congruence.
  - exact V7.
Qed.

Lemma filter_kpis_spec (p : Process G) (df_kpis : ref)
  (kpis : list KpiRecord) (date_range : list Timestamp) :
  heap p !! df_kpis = Some (KpiFrame kpis) ->
  exists view p',
    filter_kpis df_kpis date_range p = Returned (view, p') /\
    world p' = world p /\
    heap p ⊆ heap p' /\
    heap p' !! view = Some (KpiFrame (df_filtered date_range kpis)) /\
    (length date_range = 2%nat -> heap p !! view = None) /\
    (length date_range <> 2%nat -> view = df_kpis /\ p' = p).
Proof.
  intros Hdf.
  assert (exists view p',
            @ret (Process G) _ df_kpis p = Returned (view, p') /\
            world p' = world p /\ heap p ⊆ heap p' /\
            heap p' !! view = Some (KpiFrame kpis) /\
            view = df_kpis /\ p' = p) as Halias.
  { exists df_kpis, p. repeat split; auto. }
  unfold filter_kpis, df_filtered.
  destruct date_range as [|d0 [|d1 [|d2 ds]]];
    try (destruct Halias as (v & p' & E & Hw & Hs & Hl & Hv & Hp);
         exists v, p'; repeat split; auto; simpl; intros; lia).
  unfold bind, kpi_rows. rewrite Hdf.
  destruct (new_frame_spec
              (KpiFrame (boolean_index kpis (date_mask d0 d1 kpis))) p)
    as (l & p' & E & Hl & Hh & Hw).
  exists l, p'. split; [exact E|]. split; [exact Hw|]. rewrite Hh.
  split; [now apply insert_subseteq|].
  split; [apply lookup_insert_eq|].
  split; [auto | simpl; intros; lia].
Qed.

End StoreFacts.

(** C9: the filter stage returns its two views and leaves every object that
    existed before it as it was, the two source tables among them: the KPI
    view holds the date-filtered rows and the incident view the filtered
    rows with their colour and size columns, the incident view is always a
    new object, and so is the KPI view whenever a range of two dates is
    applied (otherwise it is [df_kpis] itself, unfiltered). *)
Theorem filter_stage_preserves_sources {G : Type} `{WorldLaws G}
  (p : Process G) (df_kpis df_geo : ref)
  (kpis : list KpiRecord) (geo : list GeoRow)
  (date_range : list Timestamp) (incident_filter severity_filter : string)
  (days_filter : Z) :
  heap p !! df_kpis = Some (KpiFrame kpis) ->
  heap p !! df_geo = Some (GeoFrame geo) ->
  exists kpi_view geo_view p' now,
    filter_stage df_kpis df_geo date_range incident_filter severity_filter
      days_filter p = Returned ((kpi_view, geo_view), p') /\
    heap p ⊆ heap p' /\
    heap p' !! df_kpis = Some (KpiFrame kpis) /\
    heap p' !! df_geo = Some (GeoFrame geo) /\
    heap p' !! kpi_view = Some (KpiFrame (df_filtered date_range kpis)) /\
    heap p' !! geo_view
    = Some (GeoFrame (df_geo_filtered incident_filter severity_filter
                        (now - timedelta days_filter) geo)) /\
    datetime_now (world p) = Returned (now, world p') /\
    heap p !! geo_view = None /\
    (length date_range = 2%nat -> heap p !! kpi_view = None) /\
    (length date_range <> 2%nat -> kpi_view = df_kpis).
Proof.
  intros Hk Hg. unfold filter_stage.
  destruct (filter_kpis_spec p df_kpis kpis date_range Hk)
    as (kv & p1 & E1 & W1 & S1 & L1 & N1 & A1).
  destruct (filter_geo_spec (heap p1) p1 df_geo geo incident_filter
              severity_filter days_filter (reflexivity _)
              (lookup_weaken _ _ _ _ Hg S1))
    as (gv & p2 & now & E2 & N2 & (S2 & F2 & L2)).
  assert (heap p ⊆ heap p2) as S by (etrans; eassumption).
  exists kv, gv, p2, now.
  rewrite (bind_returned _ _ _ _ _ E1), (bind_returned _ _ _ _ _ E2).
  split; [reflexivity|]. split; [exact S|].
  split; [exact (lookup_weaken _ _ _ _ Hk S)|].
  split; [exact (lookup_weaken _ _ _ _ Hg S)|].
  split; [exact (lookup_weaken _ _ _ _ L1 S2)|].
  split; [exact L2|].
  split; [now rewrite <- W1|].
  split; [exact (lookup_weaken_None _ _ _ F2 S1)|].
  split; [exact N1 | intros Hn; now destruct (A1 Hn)].
Qed.

Lemma filter_stage_preserves_sources_witness :
  exists kpi_view geo_view p' now,
    filter_stage 0%nat 1%nat
      [days_from_civil 2024 1 2; days_from_civil 2024 1 3] "pipe_burst" "All" 7
      sample_process = Returned ((kpi_view, geo_view), p') /\
    heap sample_process ⊆ heap p' /\
    heap p' !! 0%nat = Some (KpiFrame sample_kpis) /\
    heap p' !! 1%nat = Some (GeoFrame sample_geo) /\
    heap p' !! kpi_view
    = Some (KpiFrame (df_filtered [days_from_civil 2024 1 2;
                                   days_from_civil 2024 1 3] sample_kpis)) /\
    heap p' !! geo_view
    = Some (GeoFrame (df_geo_filtered "pipe_burst" "All"
                        (now - timedelta 7) sample_geo)) /\
    datetime_now (world sample_process) = Returned (now, world p') /\
    heap sample_process !! geo_view = None /\
    (length [days_from_civil 2024 1 2; days_from_civil 2024 1 3] = 2%nat ->
     heap sample_process !! kpi_view = None) /\
    (length [days_from_civil 2024 1 2; days_from_civil 2024 1 3] <> 2%nat ->
     kpi_view = 0%nat).
Proof.
  apply (filter_stage_preserves_sources sample_process 0%nat 1%nat
           sample_kpis sample_geo
           [days_from_civil 2024 1 2; days_from_civil 2024 1 3]
           "pipe_burst" "All" 7); reflexivity.
Defined.

(** ** Runs on the sample tables *)

Example calendar_of_the_range :
  civil_from_days range_start = (2022, 1, 1) /\
  civil_from_days range_end = (2024, 12, 31) /\
  tm_yday range_start = 1 /\ tm_yday range_end = 366 /\
  tm_yday (days_from_civil 2023 12 31) = 365 /\
  Z.of_nat (length (date_range range_start range_end)) = 1096.
Proof. repeat split. Qed.

Example shock_window_examples :
  shock_window (days_from_civil 2024 3 31) = false /\
  shock_window (days_from_civil 2024 4 1) = true /\
  shock_window (days_from_civil 2024 6 30) = true /\
  shock_window (days_from_civil 2024 7 1) = false /\
  shock_window (days_from_civil 2023 5 15) = false.
Proof. repeat split. Qed.

Example date_range_three_days :
  date_range (days_from_civil 2024 1 1) (days_from_civil 2024 1 3)
  = [days_from_civil 2024 1 1; days_from_civil 2024 1 2; days_from_civil 2024 1 3].
Proof. reflexivity. Qed.

Example df_filtered_sample :
  df_filtered [days_from_civil 2024 1 2; days_from_civil 2024 1 3] sample_kpis
  = tl sample_kpis /\
  df_filtered [days_from_civil 2024 1 2] sample_kpis = sample_kpis /\
  df_filtered [days_from_civil 2024 1 3; days_from_civil 2024 1 2] sample_kpis
  = [].
Proof. repeat split. Qed.

Example current_metrics_of_empty_table :
  current_metrics [] [] = Raised IndexError.
Proof. reflexivity. Qed.

Example df_geo_filtered_sample :
  map city (df_geo_filtered "pipe_burst" "All"
              (clock replay_zero - timedelta 7) sample_geo)
  = ["Johannesburg"%string] /\
  map color (df_geo_filtered "pipe_burst" "All"
               (clock replay_zero - timedelta 7) sample_geo)
  = [Some "#dc2626"%string] /\
  map size (df_geo_filtered "pipe_burst" "All"
              (clock replay_zero - timedelta 7) sample_geo)
  = [Some 15].
Proof. repeat split. Qed.

Example setitem_writes_in_place :
  exists p',
    setitem_geo 1%nat set_color sample_process = Returned (tt, p') /\
    heap p' !! 1%nat = Some (GeoFrame (map set_color sample_geo)) /\
    map color (map set_color sample_geo) <> map color sample_geo.
Proof.
  eexists. split; [reflexivity|]. split; [reflexivity|]. discriminate.
Qed.

(** ** The calendar over the generated range *)

Lemma date_range_In (start end_ d : Timestamp) :
  In d (date_range start end_) <-> start <= d <= end_.
Proof.
  unfold date_range. rewrite in_map_iff. split.
  - intros (i & <- & Hi). apply in_seq in Hi. lia.
  - intros Hd. exists (Z.to_nat (d - start)). split; [lia|].
    apply in_seq. lia.
Qed.

Lemma range_calendar :
  forallb (fun d => (2022 <=? year d) && (year d <=? 2024) &&
                    (1 <=? tm_yday d) && (tm_yday d <=? 366) &&
                    Bool.eqb (shock_window d)
                      ((days_from_civil 2024 4 1 <=? d) &&
                       (d <=? days_from_civil 2024 6 30)))
    (date_range range_start range_end) = true.
Proof. vm_compute. reflexivity. Qed.

Lemma range_calendar_at (d : Timestamp) :
  range_start <= d <= range_end ->
  2022 <= year d <= 2024 /\ 1 <= tm_yday d <= 366 /\
  shock_window d = (days_from_civil 2024 4 1 <=? d) &&
                   (d <=? days_from_civil 2024 6 30).
Proof.
  intros Hd. apply date_range_In in Hd.
  pose proof (proj1 (forallb_forall _ _) range_calendar d Hd) as Hc.
  rewrite !andb_true_iff, !Z.leb_le in Hc.
  destruct Hc as [[[[H1 H2] H3] H4] H5]. apply eqb_prop in H5. auto.
Qed.

(** X1: on the dates the generator covers, the shocked days are exactly
    the 91 consecutive days from 2024-04-01 to 2024-06-30. *)
Theorem shock_window_is_april_to_june_2024 (d : Timestamp) :
  range_start <= d <= range_end ->
  ((year d =? 2024) && in_list (month d) [4; 5; 6] = true <->
   days_from_civil 2024 4 1 <= d <= days_from_civil 2024 6 30) /\
  days_from_civil 2024 6 30 - days_from_civil 2024 4 1 + 1 = 91.
Proof.
  intros Hd. destruct (range_calendar_at d Hd) as (_ & _ & Hs).
  rewrite code_predicate_is_shock_window, Hs, andb_true_iff, !Z.leb_le.
  split; [tauto | reflexivity].
Qed.

Lemma shock_window_is_april_to_june_2024_witness :
  ((year (days_from_civil 2024 5 17) =? 2024) &&
   in_list (month (days_from_civil 2024 5 17)) [4; 5; 6] = true <->
   days_from_civil 2024 4 1 <= days_from_civil 2024 5 17
   <= days_from_civil 2024 6 30) /\
  days_from_civil 2024 6 30 - days_from_civil 2024 4 1 + 1 = 91.
Proof.
  apply (shock_window_is_april_to_june_2024 (days_from_civil 2024 5 17)).
  vm_compute. split; discriminate.
Defined.

(** X2: on every date the generator covers, each base lies inside the clamp
    of its metric (reservoir 40..95, leakage 21..25, pump uptime 90..95,
    energy cost 2.5..4.34, satisfaction 75..78), so the clamps act on the
    noise only. *)
Theorem bases_inside_clamps (d : Timestamp) :
  range_start <= d <= range_end ->
  (40 <= reservoir_base d <= 95)%R /\
  (21 <= leakage_base d <= 25)%R /\
  (90 <= pump_base d <= 95)%R /\
  (2.5 <= energy_base d <= 4.34)%R /\
  (75 <= csat_base d <= 78)%R.
Proof.
  intros Hd. destruct (range_calendar_at d Hd) as (Hy & _ & _).
  unfold reservoir_base, leakage_base, pump_base, energy_base, csat_base.
  cbv zeta.
  pose proof (SIN_bound (2 * PI * IZR (tm_yday d) / 365)) as Hsin.
  assert (year d = 2022 \/ year d = 2023 \/ year d = 2024) as Hcase by lia.
  destruct ((year d =? 2024) && in_list (month d) [4; 5; 6]) eqn:Hb.
  - apply andb_prop in Hb as [He _]. apply Z.eqb_eq in He. rewrite He.
    change (IZR (2024 - 2022)) with 2%R.
    change (IZR (25 - (2024 - 2022) * 2)) with 21%R.
    change (IZR (95 - 5)) with 90%R. change (IZR (78 - 3)) with 75%R.
    repeat split; lra.
  - change (IZR (95 - 0)) with 95%R. change (IZR (78 - 0)) with 78%R.
    destruct Hcase as [E|[E|E]]; rewrite E;
      [ change (IZR (2022 - 2022)) with 0%R;
        change (IZR (25 - (2022 - 2022) * 2)) with 25%R
      | change (IZR (2023 - 2022)) with 1%R;
        change (IZR (25 - (2023 - 2022) * 2)) with 23%R
      | change (IZR (2024 - 2022)) with 2%R;
        change (IZR (25 - (2024 - 2022) * 2)) with 21%R ];
      repeat split; lra.
Qed.

Lemma bases_inside_clamps_witness :
  (40 <= reservoir_base (days_from_civil 2024 5 17) <= 95)%R /\
  (21 <= leakage_base (days_from_civil 2024 5 17) <= 25)%R /\
  (90 <= pump_base (days_from_civil 2024 5 17) <= 95)%R /\
  (2.5 <= energy_base (days_from_civil 2024 5 17) <= 4.34)%R /\
  (75 <= csat_base (days_from_civil 2024 5 17) <= 78)%R.
Proof.
  apply (bases_inside_clamps (days_from_civil 2024 5 17)).
  vm_compute. split; discriminate.
Defined.

(** ** The date filter on the generated table *)

Lemma filter_date_range (lower upper start : Timestamp) (n : nat) :
  forall end_, Z.to_nat (end_ - start + 1) = n ->
  List.filter (fun d => (lower <=? d) && (d <=? upper)) (date_range start end_)
  = date_range (Z.max lower start) (Z.min upper end_).
Proof.
  revert start. induction n as [|n IH]; intros start end_ Hn.
  - rewrite (date_range_empty start end_) by lia.
    rewrite date_range_empty by lia. reflexivity.
  - rewrite (date_range_cons start end_) by lia. simpl.
    rewrite (IH (start + 1) end_) by lia.
    destruct (Z.leb_spec lower start); destruct (Z.leb_spec start upper); simpl.
    + rewrite (date_range_cons (Z.max lower start)) by lia.
      f_equal; [lia|]. f_equal; lia.
    + rewrite !date_range_empty by lia. reflexivity.
    + f_equal; lia.
    + f_equal; lia.
Qed.

Lemma map_date_filter (p : Timestamp -> bool) (df : list KpiRecord) :
  map date (List.filter (fun r => p (date r)) df) = List.filter p (map date df).
Proof.
  induction df as [|r df IH]; simpl; [reflexivity|].
  destruct (p (date r)); simpl; now rewrite IH.
Qed.

Lemma generated_dates {G : Type} `{WorldLaws G} (g g' : G) (df : list KpiRecord) :
  generate_sample_data g = Returned (df, g') ->
  map date df = date_range range_start range_end /\ Forall within_clamps df.
Proof.
  intros E. destruct (kpi_data_spec (date_range range_start range_end) g)
    as (df0 & g0 & E0 & Hd & Hc).
  unfold generate_sample_data in E. cbv zeta in E. rewrite E0 in E.
  injection E as <- _. auto.
Qed.

Lemma last_map {A B : Type} (f : A -> B) (l : list A) :
  last (map f l) = option_map f (last l).
Proof.
  induction l as [|x [|y l] IH]; try reflexivity.
  change (last (map f (y :: l)) = option_map f (last (y :: l))). exact IH.
Qed.

Lemma date_range_last (start end_ : Timestamp) :
  start <= end_ -> last (date_range start end_) = Some end_.
Proof.
  intros Hle. unfold date_range.
  replace (Z.to_nat (end_ - start + 1)) with (S (Z.to_nat (end_ - start))) by lia.
  rewrite seq_S, map_app. simpl. rewrite last_snoc. f_equal. lia.
Qed.

(** X3: filtering the generated table by a range of two dates returns
    exactly one row for each day that lies both in the requested range and
    in 2022-01-01..2024-12-31, in date order. *)
Theorem filtered_generated_dates {G : Type} `{WorldLaws G}
  (g g' : G) (df_kpis : list KpiRecord) (lower upper : Timestamp) :
  generate_sample_data g = Returned (df_kpis, g') ->
  map date (df_filtered [lower; upper] df_kpis)
  = date_range (Z.max lower range_start) (Z.min upper range_end) /\
  Z.of_nat (length (df_filtered [lower; upper] df_kpis))
  = Z.max 0 (Z.min upper range_end - Z.max lower range_start + 1).
Proof.
  intros E. destruct (generated_dates g g' df_kpis E) as [Hd _].
  assert (map date (df_filtered [lower; upper] df_kpis)
          = date_range (Z.max lower range_start) (Z.min upper range_end)) as Hm.
  { rewrite df_filtered_is_filter.
    rewrite (map_date_filter (fun d => (lower <=? d) && (d <=? upper))), Hd.
    exact (filter_date_range lower upper range_start _ range_end eq_refl). }
  split; [exact Hm|].
  rewrite <- (length_map date), Hm, date_range_length. lia.
Qed.

Lemma filtered_generated_dates_witness :
  exists df_kpis g',
    generate_sample_data replay_zero = Returned (df_kpis, g') /\
    map date (df_filtered [days_from_civil 2024 1 1; days_from_civil 2024 12 31]
                df_kpis)
    = date_range (Z.max (days_from_civil 2024 1 1) range_start)
        (Z.min (days_from_civil 2024 12 31) range_end) /\
    Z.of_nat (length (df_filtered [days_from_civil 2024 1 1;
                                   days_from_civil 2024 12 31] df_kpis))
    = Z.max 0 (Z.min (days_from_civil 2024 12 31) range_end
               - Z.max (days_from_civil 2024 1 1) range_start + 1).
Proof.
  destruct (kpi_data_spec (date_range range_start range_end) replay_zero)
    as (df & g' & E & _).
  exists df, g'. split; [exact E|].
  exact (filtered_generated_dates replay_zero g' df (days_from_civil 2024 1 1)
           (days_from_civil 2024 12 31) E).
Defined.

(** X4: for a range of two dates inside 2022-01-01..2024-12-31, lower not
    after upper, the filtered view of the generated table is not empty and
    the KPI cards show the row dated upper, whose metrics are within the
    clamps. *)
Theorem current_metrics_of_valid_range {G : Type} `{WorldLaws G}
  (g g' : G) (df_kpis : list KpiRecord) (lower upper : Timestamp) :
  generate_sample_data g = Returned (df_kpis, g') ->
  range_start <= lower -> lower <= upper -> upper <= range_end ->
  exists r,
    current_metrics (df_filtered [lower; upper] df_kpis) df_kpis = Returned r /\
    last (df_filtered [lower; upper] df_kpis) = Some r /\
    date r = upper /\ within_clamps r.
Proof.
  intros E Hs Hlu He.
  destruct (generated_dates g g' df_kpis E) as [Hd Hc].
  assert (map date (df_filtered [lower; upper] df_kpis) = date_range lower upper)
    as Hm.
  { rewrite df_filtered_is_filter.
    rewrite (map_date_filter (fun d => (lower <=? d) && (d <=? upper))), Hd.
    etrans;
      [exact (filter_date_range lower upper range_start _ range_end eq_refl)|].
    f_equal; lia. }
  pose proof (date_range_last lower upper Hlu) as Hlast.
  rewrite <- Hm, last_map in Hlast.
  destruct (last (df_filtered [lower; upper] df_kpis)) as [r|] eqn:Hr;
    [|discriminate].
  injection Hlast as Hdate.
  assert (In r (df_filtered [lower; upper] df_kpis)) as Hin.
  { apply last_Some in Hr as (l' & ->). apply in_or_app. right. now left. }
  exists r. split; [|split; [reflexivity|split; [exact Hdate|]]].
  - unfold current_metrics.
    destruct (df_filtered [lower; upper] df_kpis) as [|r0 f] eqn:Ef;
      [discriminate|].
    simpl negb. cbv iota.
    destruct (exists_last (l := r0 :: f)) as (l' & r' & El); [discriminate|].
    rewrite El in Hr |- *. rewrite last_snoc in Hr. injection Hr as ->.
    unfold tail1. rewrite length_app. simpl.
    replace (length l' + 1 - 1)%nat with (length l') by lia.
    now rewrite List.skipn_app, List.skipn_all, Nat.sub_diag.
  - rewrite df_filtered_is_filter in Hin. apply filter_In in Hin as [Hin _].
    rewrite List.Forall_forall in Hc. now apply Hc.
Qed.

Lemma current_metrics_of_valid_range_witness :
  exists df_kpis g' r,
    generate_sample_data replay_zero = Returned (df_kpis, g') /\
    current_metrics
      (df_filtered [days_from_civil 2024 1 1; days_from_civil 2024 12 31]
         df_kpis) df_kpis = Returned r /\
    last (df_filtered [days_from_civil 2024 1 1; days_from_civil 2024 12 31]
            df_kpis) = Some r /\
    date r = days_from_civil 2024 12 31 /\ within_clamps r.
Proof.
  destruct (kpi_data_spec (date_range range_start range_end) replay_zero)
    as (df & g' & E & _).
  destruct (current_metrics_of_valid_range replay_zero g' df
              (days_from_civil 2024 1 1) (days_from_civil 2024 12 31) E)
    as (r & Hr); [vm_compute; discriminate ..|].
  exists df, g', r. split; [exact E | exact Hr].
Defined.

(** ** The shape of the incident table *)

Section GeoShape.
Context {G : Type} `{WorldLaws G}.

Lemma geo_incident_stamped (loc : Location) (k : Z) (acc : list GeoRow) (g : G) :
  exists r g', geo_incident loc k acc g = Returned (acc ++ [r], g') /\
               (incident_of loc r /\ stamped r).
Proof.
  unfold geo_incident.
  destruct (choice_returns incident_types [0.4; 0.3; 0.3]%R g)
    as (ty & g1 & E1 & Hty);
    [discriminate | reflexivity | repeat constructor; lra | simpl; lra |].
  destruct (uniform_returns (-0.1) 0.1 g1) as (dlat & g2 & E2 & Hlat); [lra|].
  destruct (uniform_returns (-0.1) 0.1 g2) as (dlon & g3 & E3 & Hlon); [lra|].
  destruct (choice_returns severities [0.2; 0.5; 0.3]%R g3)
    as (sv & g4 & E4 & Hsv);
    [discriminate | reflexivity | repeat constructor; lra | simpl; lra |].
  destruct (now_returns g4) as (t & g5 & E5).
  destruct (randint_returns 0 30 g5) as (days & g6 & E6 & Hdays); [lia|].
  rewrite (bind_returned _ _ _ _ _ E1), (bind_returned _ _ _ _ _ E2),
    (bind_returned _ _ _ _ _ E3), (bind_returned _ _ _ _ _ E4),
    (bind_returned _ _ _ _ _ E5), (bind_returned _ _ _ _ _ E6).
  eexists _, _. split; [reflexivity|]. split.
  - unfold incident_of. simpl. repeat split; try assumption.
    + apply Rabs_le. lra.
    + apply Rabs_le. lra.
  - exists g4, g5, t, days. auto.
Qed.

Lemma geo_anchor_block (loc : Location) (acc : list GeoRow) (g : G) :
  exists bs g', geo_anchor loc acc g = Returned (acc ++ bs, g') /\ block_of loc bs.
Proof.
  unfold geo_anchor.
  destruct (randint_returns 5 15 g) as (n & g1 & E1 & Hn); [lia|].
  rewrite (bind_returned _ _ _ _ _ E1).
  destruct (for_in_appends (fun _ r => incident_of loc r /\ stamped r)
              (geo_incident loc) (geo_incident_stamped loc) (range n) acc g1)
    as (bs & g2 & E2 & HF).
  exists bs, g2. split; [exact E2|].
  pose proof (Forall2_length _ _ _ HF) as Hlen. rewrite range_length in Hlen.
  assert (Forall (fun r => incident_of loc r /\ stamped r) bs) as Hall.
  { clear -HF. induction HF; constructor; assumption. }
  split; [lia|]. split; [|exact Hall].
  clear -Hall. induction Hall as [|r bs [[Hc _] _] _ IH]; simpl; congruence.
Qed.

Lemma geo_data_blocks (locs : list Location) (g : G) :
  exists bss g',
    geo_data locs g = Returned (concat bss, g') /\ Forall2 block_of locs bss.
Proof. apply (for_in_extends _ geo_anchor geo_anchor_block locs [] g). Qed.

End GeoShape.

Lemma blocks_total {G : Type} `{World G} (locs : list Location)
  (bss : list (list GeoRow)) :
  Forall2 block_of locs bss ->
  (5 * length locs <= length (concat bss) <= 14 * length locs)%nat /\
  Forall (fun r => exists loc, In loc locs /\ incident_of loc r /\ stamped r)
    (concat bss).
Proof.
  induction 1 as [|loc bs locs bss (Hlen & _ & Hall) _ [IH1 IH2]]; simpl.
  - split; [lia | constructor].
  - rewrite length_app. split; [lia|].
    apply Forall_app. split.
    + eapply List.Forall_impl; [|exact Hall]. intros r Hr. exists loc. tauto.
    + eapply List.Forall_impl; [|exact IH2]. intros r (l & Hl & Hr).
      exists l. tauto.
Qed.

(** X5: the incident table is one block of rows per anchor, in the order of
    the anchor list; each block holds 5 to 14 incidents, all of that
    anchor's city, so the table has between 50 and 140 rows. *)
Theorem geo_table_is_blocks_per_anchor {G : Type} `{WorldLaws G} (g : G) :
  exists bss g',
    generate_geo_data g = Returned (concat bss, g') /\
    Forall2 (fun loc bs => (5 <= length bs <= 14)%nat /\
                           map city bs = repeat (loc_city loc) (length bs))
      locations bss /\
    (50 <= length (concat bss) <= 140)%nat.
Proof.
  destruct (geo_data_blocks locations g) as (bss & g' & E & HF).
  exists bss, g'. split; [exact E|]. split.
  - clear E. induction HF as [|loc bs locs bss0 (Hlen & Hc & _) _ IH];
      constructor; auto.
  - apply blocks_total in HF as [Hlen _]. simpl in Hlen. lia.
Qed.

Lemma geo_table_is_blocks_per_anchor_witness :
  exists bss g',
    generate_geo_data replay_zero = Returned (concat bss, g') /\
    Forall2 (fun loc bs => (5 <= length bs <= 14)%nat /\
                           map city bs = repeat (loc_city loc) (length bs))
      locations bss /\
    (50 <= length (concat bss) <= 140)%nat.
Proof. exact (geo_table_is_blocks_per_anchor replay_zero). Defined.

Section GeoTrace.
Context {G : Type} `{WorldLaws G}.

Lemma geo_incident_drawn (loc : Location) (k : Z) (acc : list GeoRow) (g : G) :
  exists r g', geo_incident loc k acc g = Returned (acc ++ [r], g') /\
               incident_drawn loc k g r g'.
Proof.
  unfold geo_incident.
  destruct (choice_returns incident_types [0.4; 0.3; 0.3]%R g)
    as (ty & g1 & E1 & _);
    [discriminate | reflexivity | repeat constructor; lra | simpl; lra |].
  destruct (uniform_returns (-0.1) 0.1 g1) as (dlat & g2 & E2 & _); [lra|].
  destruct (uniform_returns (-0.1) 0.1 g2) as (dlon & g3 & E3 & _); [lra|].
  destruct (choice_returns severities [0.2; 0.5; 0.3]%R g3)
    as (sv & g4 & E4 & _);
    [discriminate | reflexivity | repeat constructor; lra | simpl; lra |].
  destruct (now_returns g4) as (t & g5 & E5).
  destruct (randint_returns 0 30 g5) as (days & g6 & E6 & Hdays); [lia|].
  rewrite (bind_returned _ _ _ _ _ E1), (bind_returned _ _ _ _ _ E2),
    (bind_returned _ _ _ _ _ E3), (bind_returned _ _ _ _ _ E4),
    (bind_returned _ _ _ _ _ E5), (bind_returned _ _ _ _ _ E6).
  eexists _, g6. split; [reflexivity|].
  exists ty, sv, dlat, dlon, t, days, g1, g2, g3, g4, g5.
  repeat (split; [assumption|]).
  split; [lia|]. split; [reflexivity|]. cbn [timestamp]. unfold timedelta. lia.
Qed.

Lemma geo_anchor_drawn (loc : Location) (acc : list GeoRow) (g : G) :
  exists bs g', geo_anchor loc acc g = Returned (acc ++ bs, g') /\
                block_drawn loc g bs g'.
Proof.
  unfold geo_anchor.
  destruct (randint_returns 5 15 g) as (n & g1 & E1 & _); [lia|].
  rewrite (bind_returned _ _ _ _ _ E1).
  destruct (for_in_threaded (incident_drawn loc) (geo_incident loc)
              (geo_incident_drawn loc) (range n) acc g1)
    as (bs & g2 & E2 & HT).
  exists bs, g2. split; [exact E2|]. exists n, g1. split; assumption.
Qed.

End GeoTrace.

(** X6: the incident table is built turn by turn from the world the
    generator starts in: for each anchor the count is drawn, then for each
    incident its type, two offsets and severity are drawn, the clock is
    read and a day count from 0 to 29 is drawn; the incident's timestamp is
    that very reading less that many whole days, so it is never later than
    the reading and less than 30 days before it. *)
Theorem geo_timestamps_from_generation_clock {G : Type} `{WorldLaws G} (g : G) :
  exists bss g',
    generate_geo_data g = Returned (concat bss, g') /\
    threaded block_drawn g locations bss g'.
Proof.
  apply (for_in_threaded_blocks block_drawn geo_anchor geo_anchor_drawn
           locations [] g).
Qed.

Lemma geo_timestamps_from_generation_clock_witness :
  exists bss g',
    generate_geo_data replay_zero = Returned (concat bss, g') /\
    threaded block_drawn replay_zero locations bss g'.
Proof. exact (geo_timestamps_from_generation_clock replay_zero). Defined.

Lemma Rabs_within (x a e : R) :
  (Rabs (x - a) <= e)%R -> (a - e <= x <= a + e)%R.
Proof. unfold Rabs. destruct (Rcase_abs (x - a)); lra. Qed.

(** X7: every generated incident lies at valid coordinates, inside the box
    that the ten anchors and the 0.1 degree jitter span: latitude between
    -34.0608 and -23.8045, longitude between 18.3241 and 31.1218. *)
Theorem geo_coordinates_in_box {G : Type} `{WorldLaws G} (g : G) :
  exists df g',
    generate_geo_data g = Returned (df, g') /\
    Forall (fun r => (-34.0608 <= lat r <= -23.8045)%R /\
                     (18.3241 <= lon r <= 31.1218)%R) df.
Proof.
  destruct (geo_data_returns locations g) as (df & g' & E & _ & HF).
  exists df, g'. split; [exact E|].
  eapply List.Forall_impl; [|exact HF].
  intros r (loc & Hin & _ & _ & _ & Hlat & Hlon).
  apply Rabs_within in Hlat, Hlon.
  unfold locations in Hin. simpl in Hin.
  repeat (destruct Hin as [<-|Hin]; [simpl in Hlat, Hlon; lra|]).
  contradiction.
Qed.

Lemma geo_coordinates_in_box_witness :
  exists df g',
    generate_geo_data replay_zero = Returned (df, g') /\
    Forall (fun r => (-34.0608 <= lat r <= -23.8045)%R /\
                     (18.3241 <= lon r <= 31.1218)%R) df.
Proof. exact (geo_coordinates_in_box replay_zero). Defined.

(** ** The view of the map tab and its panels *)

Lemma df_geo_filtered_is_filter (incident_filter severity_filter : string)
  (cutoff_date : Z) (df_geo : list GeoRow) :
  df_geo_filtered incident_filter severity_filter cutoff_date df_geo
  = map set_size (map set_color
      (List.filter (fun r => type_pred incident_filter r &&
                              severity_pred severity_filter r &&
                              days_pred cutoff_date r) df_geo)).
Proof. now rewrite <- source_order_is_conjunction. Qed.

Lemma in_df_geo_filtered (incident_filter severity_filter : string)
  (cutoff_date : Z) (df_geo : list GeoRow) (v : GeoRow) :
  In v (df_geo_filtered incident_filter severity_filter cutoff_date df_geo) <->
  exists r, In r df_geo /\
            type_pred incident_filter r = true /\
            severity_pred severity_filter r = true /\
            days_pred cutoff_date r = true /\
            v = set_size (set_color r).
Proof.
  rewrite df_geo_filtered_is_filter, map_map, in_map_iff. split.
  - intros (r & <- & Hr). apply filter_In in Hr as [Hin Hp].
    apply andb_prop in Hp as [Hp Hd]. apply andb_prop in Hp as [Ht Hs].
    exists r. auto.
  - intros (r & Hin & Ht & Hs & Hd & ->). exists r. split; [reflexivity|].
    apply filter_In. split; [exact Hin|]. now rewrite Ht, Hs, Hd.
Qed.

Lemma filter_sublist_mono {A : Type} (p q : A -> bool) (l : list A) :
  (forall x, p x = true -> q x = true) ->
  sublist (List.filter p l) (List.filter q l).
Proof.
  intros Hpq. induction l as [|x l IH]; simpl; [constructor|].
  destruct (p x) eqn:Hp.
  - rewrite (Hpq x Hp). now constructor.
  - destruct (q x); [now constructor | exact IH].
Qed.

Lemma sublist_map {A B : Type} (f : A -> B) (l1 l2 : list A) :
  sublist l1 l2 -> sublist (map f l1) (map f l2).
Proof. induction 1; simpl; now constructor. Qed.

(** X8: when every row of the incident table has a type and a severity of
    the fixed sets, every row of the view comes from a row that passes the
    three filters and carries a colour and a size: #dc2626, #d97706 or
    #059669 by type, and 15, 10 or 7 by severity; no annotation is missing. *)
Theorem view_rows_are_annotated (incident_filter severity_filter : string)
  (cutoff_date : Z) (df_geo : list GeoRow) :
  Forall (fun r => In (type r) incident_types /\ In (severity r) severities)
    df_geo ->
  Forall (fun v =>
            exists c s,
              color v = Some c /\ size v = Some s /\
              In (type v, c) [("pipe_burst", "#dc2626");
                              ("pump_outage", "#d97706");
                              ("refill_station", "#059669")]%string /\
              In (severity v, s) [("High", 15); ("Medium", 10);
                                  ("Low", 7)]%string)
    (df_geo_filtered incident_filter severity_filter cutoff_date df_geo).
Proof.
  intros Hdf. apply List.Forall_forall. intros v Hv.
  apply in_df_geo_filtered in Hv as (r & Hin & _ & _ & _ & ->).
  rewrite List.Forall_forall in Hdf. destruct (Hdf r Hin) as [Ht Hs].
  simpl in Ht, Hs. simpl.
  destruct Ht as [Ht|[Ht|[Ht|[]]]]; destruct Hs as [Hs|[Hs|[Hs|[]]]];
    rewrite <- Ht, <- Hs; eexists _, _;
    (split; [vm_compute; reflexivity|]); (split; [vm_compute; reflexivity|]);
    simpl; tauto.
Qed.

Lemma view_rows_are_annotated_witness :
  Forall (fun v =>
            exists c s,
              color v = Some c /\ size v = Some s /\
              In (type v, c) [("pipe_burst", "#dc2626");
                              ("pump_outage", "#d97706");
                              ("refill_station", "#059669")]%string /\
              In (severity v, s) [("High", 15); ("Medium", 10);
                                  ("Low", 7)]%string)
    (df_geo_filtered "All" "All" (clock replay_zero - timedelta 30) sample_geo).
Proof.
  apply (view_rows_are_annotated "All" "All"
           (clock replay_zero - timedelta 30) sample_geo).
  repeat constructor; simpl; tauto.
Defined.

Lemma in_firstn {A : Type} (n : nat) (l : list A) (x : A) :
  In x (firstn n l) -> In x l.
Proof.
  intros Hx. rewrite <- (firstn_skipn n l). apply in_or_app. now left.
Qed.

(** X9: the alert panel shows at most five cards, for the first critical
    rows of the view in order; every card is of severity High and of class
    status-red (status-yellow is never used); the notice that there is no
    critical incident is shown exactly when no row of the view is High. *)
Theorem critical_alerts_are_red (df_geo_filtered : list GeoRow) :
  match critical_alerts df_geo_filtered with
  | Cards cards =>
      (1 <= length cards <= 5)%nat /\
      map snd cards
      = firstn 5 (List.filter (fun r => (severity r =? "High")%string)
                    df_geo_filtered) /\
      Forall (fun c => fst c = "status-red"%string /\
                       severity (snd c) = "High"%string) cards
  | NoCriticalIncidents =>
      Forall (fun r => severity r <> "High"%string) df_geo_filtered
  end.
Proof.
  unfold critical_alerts, critical_incidents. cbv zeta.
  rewrite boolean_index_map.
  destruct (List.filter _ df_geo_filtered) as [|r0 crit] eqn:Ef; simpl negb;
    cbv iota.
  - apply List.Forall_forall. intros r Hr Hs.
    assert (In r (List.filter (fun r => (severity r =? "High")%string)
                    df_geo_filtered)) as Hin.
    { apply filter_In. split; [exact Hr|]. now apply String.eqb_eq. }
    rewrite Ef in Hin. contradiction.
  - split; [|split].
    + rewrite length_map, length_firstn. cbn [length]. lia.
    + rewrite map_map. simpl. now rewrite map_id.
    + apply List.Forall_forall. intros c Hc.
      apply in_map_iff in Hc as (r & <- & Hr). simpl.
      apply in_firstn in Hr. rewrite <- Ef in Hr.
      apply filter_In in Hr as [_ Hs]. unfold status_color. rewrite Hs.
      split; [reflexivity | now apply String.eqb_eq].
Qed.

(** X10: when the severity filter is set to a value other than All and
    High, the view has no critical row and the alert panel is the notice
    that there is none. *)
Theorem no_alert_under_other_severity (incident_filter severity_filter : string)
  (cutoff_date : Z) (df_geo : list GeoRow) :
  severity_filter <> "All"%string -> severity_filter <> "High"%string ->
  critical_alerts
    (df_geo_filtered incident_filter severity_filter cutoff_date df_geo)
  = NoCriticalIncidents.
Proof.
  intros Hall Hhigh. unfold critical_alerts, critical_incidents. cbv zeta.
  rewrite boolean_index_map, filter_none; [reflexivity|].
  intros v Hv. apply in_df_geo_filtered in Hv as (r & _ & _ & Hs & _ & ->).
  simpl. unfold severity_pred in Hs.
  apply String.eqb_neq in Hall. rewrite Hall in Hs. simpl in Hs.
  apply String.eqb_eq in Hs. rewrite Hs. now apply String.eqb_neq.
Qed.

Lemma no_alert_under_other_severity_witness :
  critical_alerts
    (df_geo_filtered "All" "Low" (clock replay_zero - timedelta 30) sample_geo)
  = NoCriticalIncidents.
Proof.
  apply (no_alert_under_other_severity "All" "Low"
           (clock replay_zero - timedelta 30) sample_geo); discriminate.
Defined.

(** X11: widening the recency window never removes a row: with the other
    filters and the clock reading unchanged, the view for the last n days is
    a subsequence of the view for the last m days whenever n <= m. *)
Theorem wider_window_keeps_rows (incident_filter severity_filter : string)
  (now n m : Z) (df_geo : list GeoRow) :
  n <= m ->
  sublist
    (df_geo_filtered incident_filter severity_filter (now - timedelta n) df_geo)
    (df_geo_filtered incident_filter severity_filter (now - timedelta m) df_geo).
Proof.
  intros Hnm. rewrite !df_geo_filtered_is_filter.
  do 2 apply sublist_map. apply filter_sublist_mono.
  intros r Hr. apply andb_prop in Hr as [Hp Hd]. rewrite Hp. simpl.
  unfold days_pred, timedelta in *. apply Z.leb_le in Hd. apply Z.leb_le. lia.
Qed.

Lemma wider_window_keeps_rows_witness :
  sublist
    (df_geo_filtered "All" "All" (clock replay_zero - timedelta 7) sample_geo)
    (df_geo_filtered "All" "All" (clock replay_zero - timedelta 30) sample_geo).
Proof.
  apply (wider_window_keeps_rows "All" "All" (clock replay_zero) 7 30 sample_geo).
  lia.
Defined.

(** X12: the map is replaced by the notice "No incidents found" exactly
    when no row of the incident table passes the three filters together;
    otherwise the map is drawn from a view with as many rows as pass. *)
Theorem map_notice_iff_nothing_passes (incident_filter severity_filter : string)
  (cutoff_date : Z) (df_geo : list GeoRow) :
  (map_panel (df_geo_filtered incident_filter severity_filter cutoff_date df_geo)
   = NoIncidentsFound <->
   forall r, In r df_geo ->
             type_pred incident_filter r && severity_pred severity_filter r &&
             days_pred cutoff_date r = false) /\
  length (df_geo_filtered incident_filter severity_filter cutoff_date df_geo)
  = length (List.filter (fun r => type_pred incident_filter r &&
                                  severity_pred severity_filter r &&
                                  days_pred cutoff_date r) df_geo).
Proof.
  rewrite df_geo_filtered_is_filter, !length_map. split; [|reflexivity].
  unfold map_panel.
  destruct (List.filter _ df_geo) as [|r0 l] eqn:Ef; simpl; split.
  - intros _ r Hr.
    destruct (type_pred incident_filter r && severity_pred severity_filter r &&
              days_pred cutoff_date r) eqn:Hp; [|reflexivity].
    assert (In r []) as Hin by (rewrite <- Ef; apply filter_In; auto).
    contradiction.
  - reflexivity.
  - discriminate.
  - intros Hnone. assert (In r0 (r0 :: l)) as Hin by now left.
    rewrite <- Ef in Hin. apply filter_In in Hin as [Hin Hp].
    rewrite (Hnone r0 Hin) in Hp. discriminate.
Qed.

(** ** The forecasts *)

Lemma series_max_spec (col : list Timestamp) :
  match series_max col with
  | None => col = []
  | Some m => In m col /\ forall d, In d col -> d <= m
  end.
Proof.
  induction col as [|d col IH]; simpl; [reflexivity|].
  destruct (series_max col) as [m|].
  - destruct IH as [Hin Hmax]. split.
    + destruct (Z.max_spec d m) as [[_ ->]|[_ ->]]; auto.
    + intros d' [<-|Hd']; [lia|]. specialize (Hmax d' Hd'). lia.
  - subst col. split; [now left|]. intros d' [<-|[]]. lia.
Qed.

Lemma future_dates_after (m : Timestamp) :
  skipn 1 (map (fun i => m + i) (range 30)) = date_range (m + 1) (m + 29).
Proof.
  unfold date_range.
  replace (Z.to_nat (m + 29 - (m + 1) + 1)) with 29%nat by lia.
  change (range 30) with (map Z.of_nat (seq 0 30)).
  simpl. repeat (f_equal; [lia|]). f_equal. lia.
Qed.

Lemma last_n_length {A : Type} (n : nat) (col : list A) :
  length (last_n n col) = Nat.min n (length col).
Proof. unfold last_n. rewrite length_skipn. lia. Qed.

Lemma last_n_map {A B : Type} (f : A -> B) (n : nat) (l : list A) :
  last_n n (map f l) = map f (skipn (length l - n) l).
Proof. unfold last_n. rewrite length_map. apply skipn_map. Qed.

Lemma iloc_last_returns {A : Type} (col : list A) :
  col <> [] -> exists x, iloc_last col = Returned x /\ last col = Some x.
Proof.
  intros Hne. destruct (exists_last Hne) as (l & x & ->).
  exists x. unfold iloc_last. rewrite rev_app_distr. simpl.
  split; [reflexivity | apply last_snoc].
Qed.

Section ForecastFacts.
Context {G : Type} `{WorldLaws G}.

Lemma leakage_step_spec (current_leakage : R) (i : Z) (acc : list R) (g : G) :
  exists v g', leakage_step current_leakage i acc g = Returned (acc ++ [v], g') /\
               (10 <= v)%R.
Proof.
  unfold leakage_step.
  destruct (normal_returns 0 0.5 g ltac:(lra)) as (n & g' & E).
  rewrite (bind_returned _ _ _ _ _ E).
  eexists _, _. split; [reflexivity|]. apply Rmax_l.
Qed.

Lemma demand_step_spec (i : Z) (acc : list R) (g : G) :
  exists v g', demand_step i acc g = Returned (acc ++ [v], g') /\ True.
Proof.
  unfold demand_step. cbv zeta.
  destruct (normal_returns 0 0.1 g ltac:(lra)) as (n & g' & E).
  rewrite (bind_returned _ _ _ _ _ E).
  eexists _, _. split; [reflexivity | exact I].
Qed.

Lemma forecasts_spec (df_filtered : list KpiRecord) (g : G) (m : Timestamp) :
  series_max (map date df_filtered) = Some m ->
  exists f g',
    forecasts df_filtered g = Returned (f, g') /\
    future_dates f = date_range (m + 1) (m + 29) /\
    (length (forecast_leakage f) = 30%nat /\
     Forall (fun v => (10 <= v)%R) (forecast_leakage f)) /\
    length (forecast_demand f) = 30%nat /\
    length (demand_history f) = 30%nat /\
    length (history_dates f) = Nat.min 30 (length df_filtered) /\
    length (history_leakage f) = Nat.min 30 (length df_filtered) /\
    history_dates f
    = map date (skipn (length df_filtered - 30) df_filtered) /\
    history_leakage f
    = map leakage_rate (skipn (length df_filtered - 30) df_filtered).
Proof.
  intros Hm. unfold forecasts. rewrite Hm.
  assert (map leakage_rate df_filtered <> []) as Hne.
  { destruct df_filtered; [discriminate Hm | discriminate]. }
  destruct (iloc_last_returns _ Hne) as (cur & Ecur & _).
  unfold bind at 1. simpl of_outcome.
  unfold bind at 1. rewrite Ecur. simpl of_outcome.
  destruct (for_in_appends (fun _ v => (10 <= v)%R) (leakage_step cur)
              (leakage_step_spec cur) (range 30) [] g)
    as (fl & g1 & E1 & HF1).
  destruct (for_in_appends (fun _ _ => True) demand_step demand_step_spec
              (range 30) [] g1) as (fd & g2 & E2 & HF2).
  rewrite (bind_returned _ _ _ _ _ E1), (bind_returned _ _ _ _ _ E2).
  eexists _, _. split; [reflexivity|]. simpl.
  split; [apply future_dates_after|].
  pose proof (Forall2_length _ _ _ HF1) as L1.
  pose proof (Forall2_length _ _ _ HF2) as L2.
  rewrite range_length in L1, L2.
  split; [split; [now rewrite <- L1|]|].
  { clear -HF1. induction HF1; constructor; assumption. }
  split; [now rewrite <- L2|].
  split; [reflexivity|].
  rewrite !last_n_length, !length_map, !last_n_map. repeat split.
Qed.

End ForecastFacts.

(** X13: on a view with at least one row the forecasts are produced: the
    forecast axis holds the 29 days that follow the latest date of the view,
    while the leakage forecast holds 30 values, each at least 10, and the
    demand forecast and the demand history hold 30 values each; the leakage
    history is the dates and the leakage rates of the last 30 rows of the
    view, in order, or of all its rows if it has fewer. *)
Theorem forecasts_of_nonempty_view {G : Type} `{WorldLaws G}
  (df_filtered : list KpiRecord) (g : G) :
  df_filtered <> [] ->
  exists f g' m,
    forecasts df_filtered g = Returned (f, g') /\
    (In m (map date df_filtered) /\
     forall d, In d (map date df_filtered) -> d <= m) /\
    future_dates f = date_range (m + 1) (m + 29) /\
    length (future_dates f) = 29%nat /\
    (length (forecast_leakage f) = 30%nat /\
     Forall (fun v => (10 <= v)%R) (forecast_leakage f)) /\
    length (forecast_demand f) = 30%nat /\
    length (demand_history f) = 30%nat /\
    length (history_dates f) = Nat.min 30 (length df_filtered) /\
    length (history_leakage f) = Nat.min 30 (length df_filtered) /\
    history_dates f
    = map date (skipn (length df_filtered - 30) df_filtered) /\
    history_leakage f
    = map leakage_rate (skipn (length df_filtered - 30) df_filtered).
Proof.
  intros Hne. pose proof (series_max_spec (map date df_filtered)) as Hmax.
  destruct (series_max (map date df_filtered)) as [m|] eqn:Em.
  - destruct (forecasts_spec df_filtered g m Em)
      as (f & g' & E & Hfd & Hrest).
    exists f, g', m. split; [exact E|]. split; [exact Hmax|].
    split; [exact Hfd|]. split; [|exact Hrest].
    rewrite Hfd, date_range_length. lia.
  - destruct df_filtered; [congruence | discriminate Hmax].
Qed.

Lemma forecasts_of_nonempty_view_witness :
  exists f g' m,
    forecasts sample_kpis replay_zero = Returned (f, g') /\
    (In m (map date sample_kpis) /\
     forall d, In d (map date sample_kpis) -> d <= m) /\
    future_dates f = date_range (m + 1) (m + 29) /\
    length (future_dates f) = 29%nat /\
    (length (forecast_leakage f) = 30%nat /\
     Forall (fun v => (10 <= v)%R) (forecast_leakage f)) /\
    length (forecast_demand f) = 30%nat /\
    length (demand_history f) = 30%nat /\
    length (history_dates f) = Nat.min 30 (length sample_kpis) /\
    length (history_leakage f) = Nat.min 30 (length sample_kpis) /\
    history_dates f
    = map date (skipn (length sample_kpis - 30) sample_kpis) /\
    history_leakage f
    = map leakage_rate (skipn (length sample_kpis - 30) sample_kpis).
Proof.
  apply (forecasts_of_nonempty_view sample_kpis replay_zero). discriminate.
Defined.



(** X15: for a range of two dates inside 2022-01-01..2024-12-31, lower not
    after upper, the forecasts over the filtered view of the generated table
    are produced and their axis is the 29 days upper + 1 .. upper + 29. *)
Theorem forecasts_follow_selected_range {G : Type} `{WorldLaws G}
  (g g' g1 : G) (df_kpis : list KpiRecord) (lower upper : Timestamp) :
  generate_sample_data g = Returned (df_kpis, g') ->
  range_start <= lower -> lower <= upper -> upper <= range_end ->
  exists f g2,
    forecasts (df_filtered [lower; upper] df_kpis) g1 = Returned (f, g2) /\
    future_dates f = date_range (upper + 1) (upper + 29) /\
    length (history_dates f) = Nat.min 30 (Z.to_nat (upper - lower + 1)).
Proof.
  intros E Hs Hlu He.
  destruct (generated_dates g g' df_kpis E) as [Hd _].
  assert (map date (df_filtered [lower; upper] df_kpis) = date_range lower upper)
    as Hm.
  { rewrite df_filtered_is_filter.
    rewrite (map_date_filter (fun d => (lower <=? d) && (d <=? upper))), Hd.
    etrans;
      [exact (filter_date_range lower upper range_start _ range_end eq_refl)|].
    f_equal; lia. }
  pose proof (series_max_spec (map date (df_filtered [lower; upper] df_kpis)))
    as Hmax.
  destruct (series_max (map date (df_filtered [lower; upper] df_kpis)))
    as [m|] eqn:Em.
  - rewrite Hm in Hmax. destruct Hmax as [Hin Hall].
    apply date_range_In in Hin.
    assert (upper <= m) as Hup by (apply Hall, date_range_In; lia).
    assert (m = upper) as -> by lia.
    destruct (forecasts_spec _ g1 upper Em)
      as (f & g2 & Ef & Hfd & _ & _ & _ & Hh & _).
    exists f, g2. split; [exact Ef|]. split; [exact Hfd|].
    rewrite Hh, <- (length_map date), Hm, date_range_length. reflexivity.
  - rewrite Hm, (date_range_cons lower upper Hlu) in Hmax. discriminate Hmax.
Qed.

Lemma forecasts_follow_selected_range_witness :
  exists df_kpis g' f g2,
    generate_sample_data replay_zero = Returned (df_kpis, g') /\
    forecasts (df_filtered [days_from_civil 2024 1 1; days_from_civil 2024 12 31]
                 df_kpis) g' = Returned (f, g2) /\
    future_dates f = date_range (days_from_civil 2024 12 31 + 1)
                       (days_from_civil 2024 12 31 + 29) /\
    length (history_dates f)
    = Nat.min 30 (Z.to_nat (days_from_civil 2024 12 31
                            - days_from_civil 2024 1 1 + 1)).
Proof.
  destruct (kpi_data_spec (date_range range_start range_end) replay_zero)
    as (df & g' & E & _).
  destruct (forecasts_follow_selected_range replay_zero g' g' df
              (days_from_civil 2024 1 1) (days_from_civil 2024 12 31) E)
    as (f & g2 & Hf); [vm_compute; discriminate ..|].
  exists df, g', f, g2. split; [exact E | exact Hf].
Defined.
